(** * MovieCap: timeline construction of [VideoProcessor]

    A shallow embedding of [src/video_processing.py].  Times and
    durations are Python floats in the program; here they are exact
    rationals ([Q]), so every statement below is about the algorithm with
    exact arithmetic.  The process-wide random generator is an explicit
    tape of draws from the unit interval that the code consumes in
    program order.  Exceptions that the code catches are values
    ([Raised]) that the handlers of the source inspect. *)

From Stdlib Require Import QArith Qround Qabs ZArith List String Bool Lia Lqa.
From Stdlib Require Import Sorted DecimalString.
Import ListNotations.
Local Open Scope Q_scope.

(** ** Numbers as the program uses them *)

(** [a < b] as a test, next to the library's [Qle_bool]. *)
Definition Qlt_bool (a b : Q) : bool := negb (Qle_bool b a).

(** Python's [int(x)] on a float: truncation toward zero. *)
Definition int_of (x : Q) : Z := Z.quot (Qnum x) (Zpos (Qden x)).

(** Python's [min(a, b)]: the first argument unless the second is smaller. *)
Definition py_min (a b : Q) : Q := if Qlt_bool b a then b else a.

(** [np.arange(start, stop, step)]: [ceil((stop - start) / step)] values
    [start + i * step].  The interval is half-open: in exact arithmetic
    [stop] is never one of the values.  (numpy computes the length in
    floating point, where a quotient that is an integer here can come out
    just above it; [stop] itself is then the last value.) *)
Definition arange (start stop step : Q) : list Q :=
  map (fun i => start + inject_Z (Z.of_nat i) * step)
      (seq 0 (Z.to_nat (Qceiling ((stop - start) / step)))).

(** [np.isclose(a, b)] with numpy's default tolerances. *)
Definition rtol : Q := 1e-5.
Definition atol : Q := 1e-8.
Definition isclose (a b : Q) : bool :=
  Qle_bool (Qabs (a - b)) (atol + rtol * Qabs b).

(** ** The random generator *)

Module Rng.

(** The generator: an infinite tape of draws and the position of the
    next one. *)
Record rng : Type := mkRng { tape : nat -> Q; cursor : nat }.

(** Draws of [random.random()] lie in the unit interval. *)
Definition unit_tape (r : rng) : Prop :=
  forall i, 0 <= tape r i /\ tape r i <= 1.

(** Code that draws: a state-passing computation over the generator. *)
Definition Rand (A : Type) : Type := rng -> A * rng.

Definition ret {A : Type} (a : A) : Rand A := fun r => (a, r).

Definition bind {A B : Type} (m : Rand A) (k : A -> Rand B) : Rand B :=
  fun r => let (a, r') := m r in k a r'.

(** [random.random()] *)
Definition random : Rand Q :=
  fun r => (tape r (cursor r), mkRng (tape r) (S (cursor r))).

(** [random.uniform(a, b)] is [a + (b - a) * random()]. *)
Definition uniform (a b : Q) : Rand Q :=
  bind random (fun u => ret (a + (b - a) * u)).

(** [random.randint(a, b)]: raises [ValueError] (here [None]) on an
    empty range, without drawing; otherwise an integer of [a..b], here
    read off the next draw of the tape. *)
Definition randint (a b : Z) : Rand (option Z) :=
  if (b <? a)%Z then ret None
  else bind random (fun u =>
         ret (Some (a + Qfloor (u * inject_Z (b - a + 1)))%Z)).

End Rng.
Import Rng.

(** A computation only moves the cursor of the generator. *)
Definition keeps_tape {A : Type} (m : Rand A) : Prop :=
  forall r, tape (snd (m r)) = tape r.

Notation "x <- m ;; k" := (bind m (fun x => k))
  (at level 61, m at next level, right associativity).

(** Computations that may run out of fuel ([None]). *)
Definition bind_opt {A B : Type} (m : Rand (option A))
    (k : A -> Rand (option B)) : Rand (option B) :=
  o <- m ;; match o with Some a => k a | None => ret None end.

Notation "x <-? m ;; k" := (bind_opt m (fun x => k))
  (at level 61, m at next level, right associativity).

(** Code that may raise: the value it returns, or the message of the
    exception. *)
Inductive raising (A : Type) : Type :=
| Returned (a : A)
| Raised (message : string).

Arguments Returned {A} a.
Arguments Raised {A} message.

(** Sequencing of code that may raise: an exception skips what follows. *)
Definition bind_raise {A B : Type} (m : Rand (raising A))
    (k : A -> Rand (raising B)) : Rand (raising B) :=
  o <- m ;; match o with Returned a => k a | Raised e => ret (Raised e) end.

Notation "x <-! m ;; k" := (bind_raise m (fun x => k))
  (at level 61, m at next level, right associativity).

(** ** Settings and clips *)

(** The three effects of [effect_choices]. *)
Inductive effect : Type := Slowmo | Freeze | Normal.

(** The settings dictionary, with the keys the processor reads.  The
    two probability dictionaries always hold exactly their three keys;
    [fps], [quality] and [hardware_acceleration] only reach the encoder
    and are left out. *)
Record settings : Type := mkSettings {
  effect_slowmo : Q;
  effect_freeze : Q;
  effect_normal : Q;
  dist_beginning : Q;
  dist_middle : Q;
  dist_end : Q;
  slowmo_speed : Q;
  fade_probability : Q;
  fade_duration : Q;
  repeat_probability : Q;
  max_repeats : Z;
  zoom_probability : Q;
  excluded_timestamps : list (Q * Q * string);
  include_timestamps : list (Q * Q * string)
}.

(** What the algorithm can observe of a media clip: the source window it
    reads, the effect and transition put on it, and [clip.duration], the
    time it occupies in the output. *)
Record clip : Type := mkClip {
  t_start : Q;
  t_end : Q;
  effect_type : effect;
  zoomed : bool;
  faded : bool;
  clip_duration : Q
}.

(** Length of the source window of a clip. *)
Definition source_span (c : clip) : Q := t_end c - t_start c.

(** Modelled from the spec: the media collaborator (the moviepy library)
    is not part of the repository; its contract is that of sections 4.4
    and 6.  [subclip(start, end)] reads the window from [start] to [end]
    and lasts [end - start]. *)
Definition subclip (start end_ : Q) : clip :=
  mkClip start end_ Normal false false (end_ - start).

(** Modelled from the spec: [video.subclip(start, end)] on the opened
    source, of which the algorithm reads the duration only.  The
    collaborator cannot cut a window that starts after the end of the
    source: it raises [ValueError], and cuts the window otherwise. *)
Definition video_subclip (video_duration start end_ : Q) : raising clip :=
  if Qlt_bool video_duration start
  then Raised "t_start should be smaller than the clip's duration"
  else Returned (subclip start end_).

(** Modelled from the spec: [clip.fx(vfx.speedx, factor)] plays the clip
    at a speed factor, which divides its duration by the factor; at a
    factor of 0 the division raises [ZeroDivisionError]. *)
Definition speedx (c : clip) (factor : Q) : raising clip :=
  if Qeq_bool factor 0 then Raised "float division by zero"
  else Returned (mkClip (t_start c) (t_end c) Slowmo (zoomed c) (faded c)
                   (clip_duration c / factor)).

(** Modelled from the spec: [clip.to_ImageClip(t=0)] holds the first
    frame of the clip. *)
Definition to_ImageClip (c : clip) : clip :=
  mkClip (t_start c) (t_end c) Freeze false (faded c) (clip_duration c).

(** Modelled from the spec: the zoom of [create_zoom_effect] changes
    pixels only. *)
Definition create_zoom_effect (c : clip) : clip :=
  mkClip (t_start c) (t_end c) (effect_type c) true (faded c) (clip_duration c).

(** Modelled from the spec: [clip.set_duration(d)] makes the clip last
    [d]. *)
Definition set_duration (c : clip) (d : Q) : clip :=
  mkClip (t_start c) (t_end c) (effect_type c) (zoomed c) (faded c) d.

(** Modelled from the spec: [apply_fade_transition], a fade in and a
    fade out, leaves the duration unchanged. *)
Definition apply_fade_transition (c : clip) (fade : Q) : clip :=
  mkClip (t_start c) (t_end c) (effect_type c) (zoomed c) true (clip_duration c).


(** [sum(f(clip) for clip in clips)] from a start value: Python's [sum]
    adds from the left. *)
Definition fold_sum (f : clip -> Q) (l : list clip) (a : Q) : Q :=
  fold_left (fun acc c => acc + f c) l a.

(** [sum(clip.duration for clip in clips)] *)
Definition sum_durations (clips : list clip) : Q :=
  fold_sum clip_duration clips 0.

(** The same sum over the source windows, used in statements only. *)
Definition sum_spans (clips : list clip) : Q :=
  fold_sum source_span clips 0.

(** ** The processor *)

Module VideoProcessor.

(** [get_end_segment]: the start of the End-main zone and the tail
    window. *)
Definition get_end_segment (duration : Q) : Q * Q * Q :=
  let minutes := duration / 60 in
  let main_start :=
    if Qle_bool minutes 90 then duration - 300
    else if Qle_bool minutes 120 then duration - 480
    else duration - 600 in
  let final_segment_start := duration - 10 in
  let final_segment_end := duration - 0.5 in
  (main_start, final_segment_start, final_segment_end).

(** [validate_settings]: [None] when both sums pass, otherwise the
    message of the [ValueError] raised.  The sums are exact here, and
    sums of doubles in the program. *)
Definition validate_settings (s : settings) : option string :=
  let effect_total := 0 + effect_slowmo s + effect_freeze s + effect_normal s in
  if negb (isclose effect_total 1.0)
  then Some "Effect probabilities must total 100%"%string
  else
    let segment_total := 0 + dist_beginning s + dist_middle s + dist_end s in
    if negb (isclose segment_total 1.0)
    then Some "Segment distribution must total 100%"%string
    else None.

(** [create_freeze_frame_with_effects] *)
Definition create_freeze_frame_with_effects (c : clip) (duration : Q)
    (s : settings) : Rand clip :=
  let freeze_frame := to_ImageClip c in
  u <- random ;;
  let effect :=
    if Qlt_bool u (zoom_probability s) then create_zoom_effect freeze_frame
    else freeze_frame in
  ret (set_duration effect duration).

(** [is_timestamp_excluded] *)
Definition is_timestamp_excluded (time : Q)
    (excluded : list (Q * Q * string)) : bool :=
  existsb (fun '(start, end_, _) =>
             Qle_bool start time && Qle_bool time end_) excluded.

(** [random.choices(effect_choices, weights)[0]]: [choices] raises
    [ValueError], before it draws, when the total weight is not
    positive; otherwise one draw is scaled by the total weight and looked
    up in the running sums by the binary search of
    [bisect(cum_weights, x, 0, 2)], which tests the middle sum first. *)
Definition choose_effect (s : settings) : Rand (raising effect) :=
  let c1 := effect_slowmo s in
  let c2 := c1 + effect_freeze s in
  let total := c2 + effect_normal s in
  if Qle_bool total 0
  then ret (Raised "Total of weights must be greater than zero")
  else
    u <- random ;;
    let x := u * total in
    ret (Returned (if Qlt_bool x c2
                   then (if Qlt_bool x c1 then Slowmo else Freeze)
                   else Normal)).

(** The effect and transition draws, written out twice in the source:
    lines 101-118 of [create_random_effect_clip] and lines 176-191 of
    [create_included_segment_clips]. *)
Definition random_effect (sub : clip) (duration : Q) (s : settings)
    : Rand (raising clip) :=
  chosen <-! choose_effect s ;;
  effect_clip <-! match chosen with
                  | Slowmo => ret (speedx sub (slowmo_speed s))
                  | Freeze =>
                      frozen <- create_freeze_frame_with_effects sub duration s ;;
                      ret (Returned frozen)
                  | Normal => ret (Returned sub)
                  end ;;
  u <- random ;;
  ret (Returned (if Qlt_bool u (fade_probability s)
                 then apply_fade_transition effect_clip (fade_duration s)
                 else effect_clip)).

(** [create_random_effect_clip] on the source [clip], of which the
    duration is read; [cancelled] is [self.cancelled], a flag that only
    the caller's thread writes: it is fixed for the stretch of code
    modelled here.  The function returns a clip, returns [None], or
    raises what the collaborator or [random.choices] raises. *)
Definition create_random_effect_clip (cancelled : bool)
    (video_duration start_time duration : Q) (s : settings)
    : Rand (raising (option clip)) :=
  if cancelled then ret (Returned None)
  else if existsb (fun t => is_timestamp_excluded t (excluded_timestamps s))
                  (arange start_time (start_time + duration) 0.5)
  then ret (Returned None)
  else
    sub <-! ret (video_subclip video_duration start_time
                   (start_time + duration)) ;;
    effect_clip <-! random_effect sub duration s ;;
    ret (Returned (Some effect_clip)).

(** The [for _ in range(num_repeats)] loop of [create_section_clips].
    An exception leaves the loop and the [try] block around it; the
    handler of lines 149-150 logs it, and the clips appended before it
    stay in the list. *)
Fixpoint repeat_loop (num_repeats : nat) (cancelled : bool)
    (video_duration current_time segment_duration : Q) (s : settings)
    (clips : list clip) : Rand (list clip) :=
  match num_repeats with
  | O => ret clips
  | S n =>
      if cancelled then ret clips
      else
        repeat_clip <- create_random_effect_clip cancelled video_duration
                         current_time segment_duration s ;;
        match repeat_clip with
        | Returned (Some c) =>
            repeat_loop n cancelled video_duration current_time
              segment_duration s (clips ++ [c])
        | Returned None =>
            repeat_loop n cancelled video_duration current_time
              segment_duration s clips
        | Raised _ => ret clips
        end
  end.

(** The [try] block of one iteration of [create_section_clips], with its
    handler (lines 136-150): whatever is raised inside, by the making of
    a clip or by [randint] on an empty range, is logged, and the clips
    appended so far stay. *)
Definition try_segment (cancelled : bool)
    (video_duration current_time segment_duration : Q)
    (s : settings) (clips : list clip) : Rand (list clip) :=
  made <- create_random_effect_clip cancelled video_duration current_time
            segment_duration s ;;
  match made with
  | Raised _ => ret clips
  | Returned None => ret clips
  | Returned (Some c) =>
      let clips := clips ++ [c] in
      u <- random ;;
      if Qlt_bool u (repeat_probability s) then
        drawn <- randint 1 (max_repeats s) ;;
        match drawn with
        | None => ret clips
        | Some num_repeats =>
            repeat_loop (Z.to_nat num_repeats) cancelled video_duration
              current_time segment_duration s clips
        end
      else ret clips
  end.

(** The [while] loop of [create_section_clips]; [None] when the fuel
    runs out before the loop exits. *)
Fixpoint section_loop (fuel : nat) (cancelled : bool) (video_duration : Q)
    (s : settings) (section_end step current_time : Q) (clips : list clip)
    : Rand (option (list clip)) :=
  match fuel with
  | O => ret None
  | S fuel' =>
      if Qlt_bool current_time section_end && negb cancelled then
        let remaining_time := section_end - current_time in
        if Qlt_bool remaining_time 2 then ret (Some clips)
        else
          let max_duration := py_min 4 remaining_time in
          segment_duration <- uniform 2 max_duration ;;
          clips' <- try_segment cancelled video_duration current_time
                      segment_duration s clips ;;
          step_variation <- uniform 0.8 1.2 ;;
          section_loop fuel' cancelled video_duration s section_end step
            (current_time + step * step_variation) clips'
      else ret (Some clips)
  end.

(** [actual_segments] of [create_section_clips]. *)
Definition actual_segments (section_duration : Q) (num_segments : Z) : Z :=
  Z.max 1 (Z.min num_segments (int_of (section_duration / 2))).

(** [create_section_clips] on the source [video], of which the duration
    is read. *)
Definition create_section_clips (fuel : nat) (cancelled : bool)
    (video_duration section_start section_end : Q) (num_segments : Z)
    (s : settings) : Rand (option (list clip)) :=
  let section_duration := section_end - section_start in
  let step := section_duration / inject_Z (actual_segments section_duration num_segments) in
  section_loop fuel cancelled video_duration s section_end step section_start [].

(** The placement tags [create_included_segment_clips] knows. *)
Definition known_position (position : string) : bool :=
  String.eqb position "beginning" || String.eqb position "middle"
  || String.eqb position "end".

(** The [for] loop of [create_included_segment_clips], with the list it
    appends to.  Each turn runs in a [try] block (lines 168-196): when
    the making of the clip raises, the handler logs the exception and the
    loop goes on with the next range. *)
Fixpoint included_loop (cancelled : bool) (video_duration : Q)
    (ranges : list (Q * Q * string))
    (s : settings) (included_clips : list (clip * string))
    : Rand (list (clip * string)) :=
  match ranges with
  | [] => ret included_clips
  | (start, end_, position) :: rest =>
      if cancelled then ret included_clips
      else
        let position :=
          if known_position position then position else "end"%string in
        let duration := end_ - start in
        if Qle_bool duration 0
        then included_loop cancelled video_duration rest s included_clips
        else
          made <- (sub <-! ret (video_subclip video_duration start end_) ;;
                   random_effect sub duration s) ;;
          match made with
          | Returned effect_clip =>
              included_loop cancelled video_duration rest s
                (included_clips ++ [(effect_clip, position)])
          | Raised _ =>
              included_loop cancelled video_duration rest s included_clips
          end
  end.

(** [create_included_segment_clips] on the source [video], of which the
    duration is read. *)
Definition create_included_segment_clips (cancelled : bool)
    (video_duration : Q) (include : list (Q * Q * string)) (s : settings)
    : Rand (list (clip * string)) :=
  included_loop cancelled video_duration include s [].

(** What a run does to the outside world, in order. *)
Inductive event : Type :=
| OpenVideo | OpenAudio | Concatenate | WriteFile | CloseMedia.

(** How a run ends: [process_video] returns [True] only when it
    completed; a cancelled run and a run stopped by an exception both
    return [False]. *)
Inductive outcome : Type :=
| Cancelled
| Failed (message : string)
| Completed (timeline : list clip) (rendered_duration : Q).

(** [all_segments.pop()]: the list without its last element, and that
    element. *)
Definition pop (l : list clip) : option (list clip * clip) :=
  match rev l with
  | [] => None
  | c :: before => Some (rev before, c)
  end.

(** The trimming loop, lines 317-319; every turn removes one clip, so
    the length of the list is fuel enough. *)
Fixpoint trim_loop (fuel : nat) (trim_duration : Q)
    (all_segments : list clip) : Q * list clip :=
  match fuel with
  | O => (trim_duration, all_segments)
  | S fuel' =>
      if Qlt_bool 0 trim_duration then
        match pop all_segments with
        | Some (rest, clip_to_remove) =>
            trim_loop fuel' (trim_duration - clip_duration clip_to_remove) rest
        | None => (trim_duration, all_segments)
        end
      else (trim_duration, all_segments)
  end.

(** [included_end_clips], line 308. *)
Definition included_end_clips (included_clips : list (clip * string))
    : list clip :=
  map fst (filter (fun cp => String.eqb (snd cp) "end") included_clips).

(** The excess that line 316 computes. *)
Definition trim_excess (all_segments : list clip)
    (included_clips : list (clip * string)) (target_duration : Q) : Q :=
  let main_clips_duration := sum_durations all_segments in
  let included_clips_duration := sum_durations (map fst included_clips) in
  main_clips_duration + included_clips_duration - target_duration.

(** The main sequence after the trimming of lines 310-319. *)
Definition trim_segments (all_segments : list clip)
    (included_clips : list (clip * string)) (target_duration : Q)
    : list clip :=
  let main_clips_duration := sum_durations all_segments in
  let included_clips_duration := sum_durations (map fst included_clips) in
  if Qlt_bool target_duration (main_clips_duration + included_clips_duration)
  then
    let trim_duration := trim_excess all_segments included_clips target_duration in
    snd (trim_loop (List.length all_segments) trim_duration all_segments)
  else all_segments.

(** Duration fitting, lines 304-322 of [process_video]: the final
    list handed to the concatenation. *)
Definition fit_timeline (all_segments : list clip)
    (included_clips : list (clip * string)) (target_duration : Q)
    : list clip :=
  trim_segments all_segments included_clips target_duration
    ++ included_end_clips included_clips.

(** The duration of the concatenated video after line 335: a
    concatenation lasts the sum of its parts, and [subclip(0, target)]
    lasts [target - 0]. *)
Definition clamp_duration (final_duration target_duration : Q) : Q :=
  if Qlt_bool target_duration final_duration then target_duration - 0
  else final_duration.

(** Lines 263-302 of [process_video]: the three zones, the tail clip
    and the included clips.  The tail window starts 10 s before the end
    of the source, a window that the collaborator cuts.  The segment
    counts are [int] of exact quotients here, and of rounded ones in the
    program. *)
Definition assemble (fuel : nat) (cancelled : bool)
    (video_duration target_duration : Q) (s : settings)
    : Rand (option (list clip * list (clip * string))) :=
  let beginning_end := video_duration * 0.33 in
  let middle_start := video_duration * 0.33 in
  let middle_end := video_duration * 0.66 in
  let '(main_start, final_start, final_end) := get_end_segment video_duration in
  let beginning_target := target_duration * dist_beginning s in
  let middle_target := target_duration * dist_middle s in
  let end_target := target_duration * dist_end s in
  let avg_segment_duration := 3 in
  let beginning_segments := int_of (beginning_target / avg_segment_duration) in
  let middle_segments := int_of (middle_target / avg_segment_duration) in
  let end_segments := int_of (end_target / avg_segment_duration) in
  beginning_clips <-? create_section_clips fuel cancelled video_duration
                        0 beginning_end beginning_segments s ;;
  middle_clips <-? create_section_clips fuel cancelled video_duration
                     middle_start middle_end middle_segments s ;;
  end_clips <-? create_section_clips fuel cancelled video_duration
                  main_start final_start end_segments s ;;
  let final_clip := subclip final_start final_end in
  let end_clips := end_clips ++ [final_clip] in
  included_clips <- create_included_segment_clips cancelled video_duration
                      (include_timestamps s) s ;;
  ret (Some (beginning_clips ++ middle_clips ++ end_clips, included_clips)).

(** [process_video] on a source of [video_duration] seconds and an
    audio track of [target_duration] seconds, for a run in which the
    collaborator opens both files, concatenates and writes without
    failing, and in which the flag keeps the value read at line 251: the
    later reads of it (lines 283 to 367) then see the same value, and are
    not repeated. *)
Definition process_video (fuel : nat) (cancelled : bool)
    (video_duration target_duration : Q) (s : settings)
    : Rand (option (list event * outcome)) :=
  let opened := [OpenVideo; OpenAudio] in
  if cancelled then ret (Some (opened, Cancelled))
  else
    match validate_settings s with
    | Some message => ret (Some (opened, Failed message))
    | None =>
        assembled <-? assemble fuel cancelled video_duration target_duration s ;;
        let '(all_segments, included_clips) := assembled in
        let all_segments := fit_timeline all_segments included_clips target_duration in
        match all_segments with
        | [] => ret (Some (opened,
                           Failed "No valid video segments could be created"))
        | _ :: _ =>
            let final_duration :=
              clamp_duration (sum_durations all_segments) target_duration in
            ret (Some (opened ++ [Concatenate; WriteFile; CloseMedia],
                       Completed all_segments final_duration))
        end
    end.

(** The check of [start_processing] in [ui_handlers.py] (lines 401-406),
    made before the processor is created: [true] when the run is
    refused.  The sums are exact here, and sums of doubles in the
    program. *)
Definition start_processing_refuses (s : settings) : bool :=
  let effect_total := 0 + effect_slowmo s + effect_freeze s + effect_normal s in
  let segment_total := 0 + dist_beginning s + dist_middle s + dist_end s in
  Qlt_bool 0.01 (Qabs (effect_total - 1.0))
  || Qlt_bool 0.01 (Qabs (segment_total - 1.0)).

(** The tag [create_included_segment_clips] records for a range
    (lines 165-166). *)
Definition placed_tag (position : string) : string :=
  if known_position position then position else "end"%string.

(** The ranges [create_included_segment_clips] makes a clip of: those
    that pass the test of lines 169-171. *)
Definition has_length (range : Q * Q * string) : bool :=
  let '(start, end_, _) := range in negb (Qle_bool (end_ - start) 0).

(** The source window and the tag of an included clip, and of the range
    it comes from. *)
Definition clip_window_tag (cp : clip * string) : Q * Q * string :=
  (t_start (fst cp), t_end (fst cp), snd cp).

Definition range_window_tag (range : Q * Q * string) : Q * Q * string :=
  let '(start, end_, position) := range in (start, end_, placed_tag position).

(** The settings that [random_effect] reads. *)
Definition same_effect_settings (s s' : settings) : Prop :=
  effect_slowmo s = effect_slowmo s'
  /\ effect_freeze s = effect_freeze s'
  /\ effect_normal s = effect_normal s'
  /\ slowmo_speed s = slowmo_speed s'
  /\ zoom_probability s = zoom_probability s'
  /\ fade_probability s = fade_probability s'
  /\ fade_duration s = fade_duration s'.

(** The settings with other ranges. *)
Definition with_ranges (s : settings) (excluded include : list (Q * Q * string))
    : settings :=
  mkSettings (effect_slowmo s) (effect_freeze s) (effect_normal s)
    (dist_beginning s) (dist_middle s) (dist_end s) (slowmo_speed s)
    (fade_probability s) (fade_duration s) (repeat_probability s)
    (max_repeats s) (zoom_probability s) excluded include.

End VideoProcessor.
Import VideoProcessor.

(** ** The timestamp dialogs of [ui_handlers.py] *)

Module Dialogs.

(** [TimestampDialog.ok_clicked]: the range entered, or [None] when the
    dialog shows an error and stays open. *)
Definition TimestampDialog_ok (start end_ : Q) (desc : string)
    : option (Q * Q * string) :=
  if Qle_bool end_ start then None else Some (start, end_, desc).

(** [IncludedTimestampDialog.ok_clicked] *)
Definition IncludedTimestampDialog_ok (start end_ : Q) (pos : string)
    : option (Q * Q * string) :=
  if Qle_bool end_ start then None
  else if negb (known_position pos) then None
  else Some (start, end_, pos).

End Dialogs.
Import Dialogs.

(** ** The fitting as the specification words it *)

Module Specification.

(** Section 4.5, step 4: the excess counts the main sequence and the
    [end]-tagged included clips only. *)
Definition claimed_excess (mainSequence : list clip)
    (included : list (clip * string)) (TargetDuration : Q) : Q :=
  sum_durations mainSequence + sum_durations (included_end_clips included)
  - TargetDuration.

(** Section 4.5, steps 5 and 6: pop from the end while that excess is
    positive, then append the [end]-tagged included clips. *)
Definition claimed_fit_timeline (mainSequence : list clip)
    (included : list (clip * string)) (TargetDuration : Q) : list clip :=
  snd (trim_loop (List.length mainSequence)
         (claimed_excess mainSequence included TargetDuration) mainSequence)
    ++ included_end_clips included.

End Specification.
Import Specification.

(** ** Sample runs *)

Module Samples.
Import VideoProcessor.

(** A generator whose every draw is [u]. *)
Definition constant_rng (u : Q) : rng := mkRng (fun _ => u) 0.

(** The default settings of [main.py], without its ranges. *)
Definition defaults : settings :=
  mkSettings 0.25 0.65 0.10 0.40 0.25 0.35 0.35 0.5 0.5 0.2 1 0.3 [] [].

(** The defaults with one included range tagged [beginning]. *)
Definition with_beginning_range : settings :=
  mkSettings 0.25 0.65 0.10 0.40 0.25 0.35 0.35 0.5 0.5 0.2 1 0.3 []
    [(100, 104, "beginning"%string)].

(** Every sampled clip is a slow-motion clip played at twice the speed. *)
Definition double_speed : settings :=
  mkSettings 1 0 0 0.40 0.25 0.35 2 0.5 0.5 0.2 1 0.3 [] [].

(** The default settings of [main.py] with their excluded ranges. *)
Definition main_defaults : settings :=
  mkSettings 0.25 0.65 0.10 0.40 0.25 0.35 0.35 0.5 0.5 0.2 1 0.3
    [(0, 97, "Opening sequence"%string);
     (176, 206, "Scene transition"%string);
     (260, 280, "Scene transition"%string);
     (342, 357, "Scene transition"%string);
     (411, 442, "Scene transition"%string);
     (7522, 7642, "End sequence"%string);
     (7656, 7668, "Credits start"%string);
     (7773, 8138, "End credits"%string)]
    [(7674, 7773, "end"%string)].

(** The defaults with effect probabilities that sum to 1.005. *)
Definition slightly_off : settings :=
  mkSettings 0.255 0.65 0.10 0.40 0.25 0.35 0.35 0.5 0.5 0.2 1 0.3 [] [].

(** The defaults with a repeat after every clip, and one included range. *)
Definition always_repeat : settings :=
  mkSettings 0.25 0.65 0.10 0.40 0.25 0.35 0.35 0.5 0.5 1 2 0.3 []
    [(100, 104, "end"%string)].

(** The defaults with a reversed excluded range, a reversed included
    range and an included range with an unknown tag. *)
Definition malformed_ranges : settings :=
  mkSettings 0.25 0.65 0.10 0.40 0.25 0.35 0.35 0.5 0.5 0.2 1 0.3
    [(50, 10, "reversed"%string)]
    [(150, 100, "beginning"%string); (100, 104, "bogus"%string)].

End Samples.
Import Samples.

(** ** Statements about sampled clips *)

(** Draws of [random.random()] never reach 1. *)
Definition unit_draws (r : rng) : Prop :=
  forall i, 0 <= tape r i /\ tape r i < 1.

(** No half-second mark of the clip's window, from its start and before
    its end, lies in an excluded range of the settings. *)
Definition probes_clear (s : settings) (c : clip) : Prop :=
  forall k : nat,
    t_start c + inject_Z (Z.of_nat k) * 0.5 < t_end c ->
    is_timestamp_excluded (t_start c + inject_Z (Z.of_nat k) * 0.5)
      (excluded_timestamps s) = false.

(** A clip made for the candidate [(current_time, segment_duration)]. *)
Definition made_at (s : settings) (current_time segment_duration : Q)
    (c : clip) : Prop :=
  t_start c = current_time
  /\ t_end c = current_time + segment_duration
  /\ probes_clear s c.

(** A clip sampled in a zone at or after [from]. *)
Definition sampled_from (s : settings) (from section_end : Q) (c : clip)
    : Prop :=
  from <= t_start c
  /\ t_end c <= section_end
  /\ 2 <= source_span c
  /\ source_span c <= 4
  /\ probes_clear s c.

(** Clips in the order of their start times. *)
Definition starts_sorted (clips : list clip) : Prop :=
  StronglySorted (fun a b => t_start a <= t_start b) clips.

(** What one candidate contributed to a zone: the time of the candidate
    and its clips, the original and its repeats, which all start at that
    time. *)
Definition candidate_group (g : Q * list clip) : Prop :=
  snd g <> [] /\ Forall (fun c => t_start c = fst g) (snd g).

(** ** Encoder parameters of [video_processing.py] *)

Module Encoding.

(** Python's [needle in haystack] on strings. *)
Fixpoint py_in (needle haystack : string) : bool :=
  String.prefix needle haystack
  || match haystack with
     | EmptyString => false
     | String _ rest => py_in needle rest
     end.

(** [table.get(key, default)] on a dictionary written as its list of
    items. *)
Fixpoint dict_get (key : string) (table : list (string * string))
    (default : string) : string :=
  match table with
  | [] => default
  | (k, v) :: rest => if String.eqb key k then v else dict_get key rest default
  end.

(** [analyze_video_quality] on a video [width] pixels wide and [height]
    pixels high. *)
Definition analyze_video_quality (width height : Z) : string :=
  let pixels := (width * height)%Z in
  if (8294400 <=? pixels)%Z then "40000k"
  else if (2073600 <=? pixels)%Z then "10000k"
  else if (921600 <=? pixels)%Z then "6000k"
  else "4000k".

(** The number in a bitrate string of [analyze_video_quality], for
    comparing two of them. *)
Definition kilobits (bitrate : string) : Z :=
  if String.eqb bitrate "40000k" then 40000
  else if String.eqb bitrate "10000k" then 10000
  else if String.eqb bitrate "6000k" then 6000
  else if String.eqb bitrate "4000k" then 4000
  else 0.

(** The value of [settings['hardware_acceleration']]. *)
Record hardware_acceleration : Type := mkHardware {
  enabled : bool;
  encoder : string;
  decoder : string;
  preset : string
}.

(** The dictionary [get_ffmpeg_params] returns. *)
Record ffmpeg_params : Type := mkParams {
  param_codec : string;
  param_preset : string
}.

Definition nvenc_presets : list (string * string) :=
  [("ultrafast", "p1"); ("superfast", "p2"); ("veryfast", "p3");
   ("faster", "p4"); ("fast", "p4"); ("medium", "p5");
   ("slow", "p6"); ("slower", "p7"); ("veryslow", "p7")]%string.

Definition qsv_presets : list (string * string) :=
  [("ultrafast", "veryfast"); ("superfast", "veryfast");
   ("veryfast", "veryfast"); ("faster", "faster"); ("fast", "fast");
   ("medium", "medium"); ("slow", "slow"); ("slower", "slower");
   ("veryslow", "veryslow")]%string.

Definition amf_presets : list (string * string) :=
  [("ultrafast", "speed"); ("superfast", "speed"); ("veryfast", "speed");
   ("faster", "balanced"); ("fast", "balanced"); ("medium", "balanced");
   ("slow", "quality"); ("slower", "quality"); ("veryslow", "quality")]%string.

(** [get_ffmpeg_params]; the argument is [None] when the settings have
    no [hardware_acceleration] key. *)
Definition get_ffmpeg_params (hw : option hardware_acceleration)
    : ffmpeg_params :=
  match hw with
  | Some h =>
      if enabled h then
        let params_preset :=
          if py_in "nvenc" (encoder h)
          then dict_get (preset h) nvenc_presets "p4"
          else if py_in "qsv" (encoder h)
          then dict_get (preset h) qsv_presets "medium"
          else if py_in "amf" (encoder h)
          then dict_get (preset h) amf_presets "balanced"
          else preset h in
        mkParams (encoder h) params_preset
      else mkParams "libx264" "medium"
  | None => mkParams "libx264" "medium"
  end.

End Encoding.
Import Encoding.

(** ** The hardware recommendation of [gpu_detector.py] and [main.py] *)

Module Gpu.

(** What [get_recommended_settings] reads of a [GPUDetector]: the
    platform, the vendor keys present in [gpu_info] (no other key is ever
    stored there), and the two lists of detected codecs. *)
Record detector : Type := mkDetector {
  system : string;
  gpu_nvidia : bool;
  gpu_intel : bool;
  gpu_amd : bool;
  hardware_encoders : list string;
  hardware_decoders : list string
}.

(** The dictionary [get_recommended_settings] returns. *)
Record recommendation : Type := mkRecommendation {
  rec_encoder : string;
  rec_decoder : string;
  rec_preset : string;
  rec_threads : Z;
  rec_hardware_acceleration : bool
}.

(** Python's [x in list] on a list of strings. *)
Definition list_in (x : string) (l : list string) : bool :=
  existsb (String.eqb x) l.

(** [get_recommended_settings] *)
Definition get_recommended_settings (d : detector) : recommendation :=
  let settings := mkRecommendation "libx264" "auto" "medium" 4 false in
  let settings :=
    if gpu_nvidia d then
      let settings :=
        if list_in "h264_nvenc" (hardware_encoders d)
        then mkRecommendation "h264_nvenc" (rec_decoder settings) "p4"
               (rec_threads settings) true
        else settings in
      if list_in "h264_cuvid" (hardware_decoders d)
      then mkRecommendation (rec_encoder settings) "h264_cuvid"
             (rec_preset settings) (rec_threads settings)
             (rec_hardware_acceleration settings)
      else settings
    else if gpu_intel d then
      let settings :=
        if list_in "h264_qsv" (hardware_encoders d)
        then mkRecommendation "h264_qsv" (rec_decoder settings) "medium"
               (rec_threads settings) true
        else settings in
      if list_in "h264_qsv" (hardware_decoders d)
      then mkRecommendation (rec_encoder settings) "h264_qsv"
             (rec_preset settings) (rec_threads settings)
             (rec_hardware_acceleration settings)
      else settings
    else if gpu_amd d then
      if list_in "h264_amf" (hardware_encoders d)
      then mkRecommendation "h264_amf" (rec_decoder settings) "balanced"
             (rec_threads settings) true
      else settings
    else settings in
  if String.eqb (system d) "Darwin" then
    if list_in "h264_videotoolbox" (hardware_encoders d)
    then mkRecommendation "h264_videotoolbox" (rec_decoder settings)
           (rec_preset settings) (rec_threads settings) true
    else settings
  else settings.

(** The three variables of the settings form that
    [apply_recommended_settings] writes and [collect_settings] reads. *)
Record form_vars : Type := mkVars {
  hw_accel_var : bool;
  encoder_var : string;
  preset_var : string
}.

(** [apply_recommended_settings] of [main.py], once a recommendation is
    there: the form variables and the new value of
    [settings['hardware_acceleration']]. *)
Definition apply_recommended_settings (rec_settings : recommendation)
    : form_vars * hardware_acceleration :=
  let vars :=
    if rec_hardware_acceleration rec_settings
    then mkVars true (rec_encoder rec_settings) (rec_preset rec_settings)
    else mkVars false "libx264" "medium" in
  (vars,
   mkHardware (rec_hardware_acceleration rec_settings)
     (rec_encoder rec_settings) (rec_decoder rec_settings)
     (rec_preset rec_settings)).

(** The hardware lines of [collect_settings] in [ui_handlers.py]
    (lines 331-333): three keys are overwritten from the form. *)
Definition collect_hardware (vars : form_vars) (hw : hardware_acceleration)
    : hardware_acceleration :=
  mkHardware (hw_accel_var vars) (encoder_var vars) (decoder hw)
    (preset_var vars).

End Gpu.
Import Gpu.

(** ** File sizes of [ui_handlers.py] *)

Module FileSize.

(** The units of [format_file_size]. *)
Definition units : list string := ["B"; "KB"; "MB"; "GB"]%string.

(** The [while] loop of [format_file_size]; every turn moves to the next
    unit, so four turns are never all taken. *)
Fixpoint size_loop (fuel : nat) (size : Q) (unit_index : nat) : Q * nat :=
  match fuel with
  | O => (size, unit_index)
  | S fuel' =>
      if Qle_bool 1024 size && (unit_index <? List.length units - 1)%nat
      then size_loop fuel' (size / 1024) (S unit_index)
      else (size, unit_index)
  end.

(** The integer nearest to [x], the even one of the two when [x] lies
    halfway: the rounding of Python's number formats. *)
Definition round_half_even (x : Q) : Z :=
  let below := Qfloor x in
  let rest := x - inject_Z below in
  if Qlt_bool rest (1 # 2) then below
  else if Qlt_bool (1 # 2) rest then (below + 1)%Z
  else if Z.even below then below else (below + 1)%Z.

(** A natural number in decimal digits. *)
Definition digits (n : Z) : string :=
  NilZero.string_of_uint (N.to_uint (Z.to_N n)).

(** [f"{size:.2f}"] for a size that is not negative: the nearest number
    of hundredths, written with a point before its last two digits.  (A
    file size below 2^53 bytes and its quotients by 1024 are doubles
    without rounding, and the format rounds the exact value.) *)
Definition format_2f (size : Q) : string :=
  let hundredths := round_half_even (size * 100) in
  (digits (hundredths / 100) ++ "."
   ++ digits (hundredths mod 100 / 10) ++ digits (hundredths mod 10))%string.

(** [format_file_size] of a size in bytes. *)
Definition format_file_size (bytes_size : Z) : string :=
  let '(size, unit_index) := size_loop 4 (inject_Z bytes_size) 0 in
  (format_2f size ++ " " ++ nth unit_index units "")%string.

End FileSize.
Import FileSize.

(** ** Arithmetic of the tests *)

Lemma Qlt_bool_iff (a b : Q) : Qlt_bool a b = true <-> a < b.
Proof.
  unfold Qlt_bool. rewrite negb_true_iff.
  split; intro H.
  - apply Qnot_le_lt. intro Hle. apply Qle_bool_iff in Hle. congruence.
  - destruct (Qle_bool b a) eqn:E; [|reflexivity].
    apply Qle_bool_iff in E. lra.
Qed.

Lemma Qlt_bool_false_iff (a b : Q) : Qlt_bool a b = false <-> b <= a.
Proof.
  unfold Qlt_bool. rewrite negb_false_iff. apply Qle_bool_iff.
Qed.

Lemma Qle_bool_false_iff (a b : Q) : Qle_bool a b = false <-> b < a.
Proof.
  rewrite <- Qlt_bool_iff. unfold Qlt_bool.
  destruct (Qle_bool a b); simpl; split; congruence.
Qed.

(** Moves every boolean comparison of the context to its proposition. *)
Ltac prop_tests :=
  repeat match goal with
  | H : Qlt_bool _ _ = true |- _ => apply Qlt_bool_iff in H
  | H : Qlt_bool _ _ = false |- _ => apply Qlt_bool_false_iff in H
  | H : Qle_bool _ _ = true |- _ => apply Qle_bool_iff in H
  | H : Qle_bool _ _ = false |- _ => apply Qle_bool_false_iff in H
  end.

Lemma py_min_le_l (a b : Q) : py_min a b <= a.
Proof.
  unfold py_min. destruct (Qlt_bool b a) eqn:E; prop_tests; lra.
Qed.

Lemma py_min_le_r (a b : Q) : py_min a b <= b.
Proof.
  unfold py_min. destruct (Qlt_bool b a) eqn:E; prop_tests; lra.
Qed.

Lemma py_min_glb (a b c : Q) : c <= a -> c <= b -> c <= py_min a b.
Proof.
  unfold py_min. destruct (Qlt_bool b a); auto.
Qed.

(** ** Zone planning *)

(** C8. The zone plan is a function of the duration alone: the End-main
    zone starts 300 s before the end for sources of at most 5400 s, 480 s
    before it for sources of at most 7200 s, and 600 s before it for
    longer ones; the tail window is always [[duration - 10, duration - 0.5)]. *)
Theorem zone_boundary_law (duration : Q) :
  0 < duration ->
  (duration <= 5400 ->
     get_end_segment duration = (duration - 300, duration - 10, duration - 0.5)) /\
  (5400 < duration -> duration <= 7200 ->
     get_end_segment duration = (duration - 480, duration - 10, duration - 0.5)) /\
  (7200 < duration ->
     get_end_segment duration = (duration - 600, duration - 10, duration - 0.5)).
Proof.
  intros Hpos. unfold get_end_segment.
  repeat split; intros.
  - assert (E : Qle_bool (duration / 60) 90 = true)
      by (apply Qle_bool_iff, Qle_shift_div_r; lra).
    now rewrite E.
  - assert (E1 : Qle_bool (duration / 60) 90 = false)
      by (apply Qle_bool_false_iff, Qlt_shift_div_l; lra).
    assert (E2 : Qle_bool (duration / 60) 120 = true)
      by (apply Qle_bool_iff, Qle_shift_div_r; lra).
    now rewrite E1, E2.
  - assert (E1 : Qle_bool (duration / 60) 90 = false)
      by (apply Qle_bool_false_iff, Qlt_shift_div_l; lra).
    assert (E2 : Qle_bool (duration / 60) 120 = false)
      by (apply Qle_bool_false_iff, Qlt_shift_div_l; lra).
    now rewrite E1, E2.
Qed.

Lemma zone_boundary_law_witness :
  get_end_segment 600 = (600 - 300, 600 - 10, 600 - 0.5)
  /\ get_end_segment 6000 = (6000 - 480, 6000 - 10, 6000 - 0.5)
  /\ get_end_segment 8000 = (8000 - 600, 8000 - 10, 8000 - 0.5).
Proof.
  split; [|split].
  - apply (zone_boundary_law 600); [reflexivity | unfold Qle; simpl; lia].
  - apply (zone_boundary_law 6000);
      [reflexivity | reflexivity | unfold Qle; simpl; lia].
  - apply (zone_boundary_law 8000); reflexivity.
Defined.

(** ** Exclusion probing *)

Lemma is_timestamp_excluded_iff (time : Q) (excluded : list (Q * Q * string)) :
  is_timestamp_excluded time excluded = true <->
  exists lo hi label, In (lo, hi, label) excluded /\ lo <= time /\ time <= hi.
Proof.
  unfold is_timestamp_excluded. rewrite existsb_exists. split.
  - intros [[[lo hi] label] [Hin Htest]].
    apply andb_true_iff in Htest. destruct Htest as [H1 H2]. prop_tests.
    exists lo, hi, label. auto.
  - intros (lo & hi & label & Hin & H1 & H2).
    exists (lo, hi, label). split; [assumption|].
    apply andb_true_iff. split; apply Qle_bool_iff; assumption.
Qed.

(** An index is below [ceil x] exactly when it is below [x]. *)
Lemma below_ceiling_iff (k : nat) (x : Q) :
  (k < Z.to_nat (Qceiling x))%nat <-> inject_Z (Z.of_nat k) < x.
Proof.
  split; intro H.
  - assert (Hz : (Z.of_nat k <= Qceiling x - 1)%Z) by lia.
    apply Qle_lt_trans with (inject_Z (Qceiling x - 1)).
    + rewrite <- Zle_Qle. exact Hz.
    + apply Qceiling_lt.
  - assert (Hq : inject_Z (Z.of_nat k) < inject_Z (Qceiling x))
      by (eapply Qlt_le_trans; [exact H | apply Qle_ceiling]).
    rewrite <- Zlt_Qlt in Hq. lia.
Qed.

(** The probes of [np.arange(start, start + duration, 0.5)] are the
    half-second marks from [start] that lie before [start + duration]. *)
Lemma arange_probe_iff (start duration t : Q) :
  In t (arange start (start + duration) 0.5) <->
  exists k : nat,
    t = start + inject_Z (Z.of_nat k) * 0.5
    /\ start + inject_Z (Z.of_nat k) * 0.5 < start + duration.
Proof.
  unfold arange. rewrite in_map_iff.
  assert (Hx : forall k : nat,
            inject_Z (Z.of_nat k) < (start + duration - start) / 0.5 <->
            start + inject_Z (Z.of_nat k) * 0.5 < start + duration).
  { intro k.
    assert (E : (start + duration - start) / 0.5 == 2 * duration) by field.
    rewrite E. split; intro H; lra. }
  split.
  - intros [k [Ht Hin]]. apply in_seq in Hin. exists k. split; [auto|].
    apply Hx, below_ceiling_iff. lia.
  - intros [k [Ht Hlt]]. exists k. split; [auto|].
    apply in_seq. apply Hx, below_ceiling_iff in Hlt. lia.
Qed.


(** ** The effect draws *)

(** Cases on every test of the effect and transition code. *)
Ltac effect_cases :=
  unfold random_effect, choose_effect, create_freeze_frame_with_effects,
    speedx, bind_raise, bind, ret, random; simpl;
  repeat match goal with
         | |- context [if ?b then _ else _] => destruct b eqn:?; simpl
         end.

(** The effect draws keep the source window of the clip. *)
Lemma random_effect_window (sub : clip) (duration : Q) (s : settings) (r : rng)
    (c : clip) :
  fst (random_effect sub duration s r) = Returned c ->
  t_start c = t_start sub /\ t_end c = t_end sub.
Proof.
  effect_cases; intro H; try discriminate H;
    injection H as <-; auto.
Qed.

(** The effect code raises in two cases only: a total weight that is not
    positive, and slow motion at speed 0. *)
Lemma random_effect_returns (sub : clip) (duration : Q) (s : settings)
    (r : rng) :
  0 < effect_slowmo s + effect_freeze s + effect_normal s ->
  ~ slowmo_speed s == 0 ->
  exists c, fst (random_effect sub duration s r) = Returned c.
Proof.
  intros Htotal Hspeed.
  assert (E0 : Qle_bool (effect_slowmo s + effect_freeze s + effect_normal s) 0
               = false) by (apply Qle_bool_false_iff; exact Htotal).
  assert (E1 : Qeq_bool (slowmo_speed s) 0 = false).
  { destruct (Qeq_bool (slowmo_speed s) 0) eqn:E; [|reflexivity].
    apply Qeq_bool_iff in E. contradiction. }
  unfold random_effect, choose_effect, create_freeze_frame_with_effects,
    speedx, bind_raise, bind, ret, random.
  rewrite E0, E1. cbn [fst snd].
  repeat match goal with
         | |- context [if ?b then _ else _] => destruct b; cbn [fst snd]
         end; eexists; reflexivity.
Qed.

(** ** Candidates and their probes *)

(** What [create_random_effect_clip] does with a candidate of an
    uncancelled run: [None] on an excluded probe, and otherwise what the
    cut and the effect code give. *)
Lemma create_random_effect_clip_cases (video_duration start duration : Q)
    (s : settings) (r : rng) :
  let probed :=
    existsb (fun t => is_timestamp_excluded t (excluded_timestamps s))
      (arange start (start + duration) 0.5) in
  (probed = true ->
   create_random_effect_clip false video_duration start duration s r
   = (Returned None, r))
  /\ (probed = false -> video_duration < start ->
      exists message,
        create_random_effect_clip false video_duration start duration s r
        = (Raised message, r))
  /\ (probed = false -> start <= video_duration ->
      create_random_effect_clip false video_duration start duration s r
      = (match fst (random_effect (subclip start (start + duration))
                      duration s r) with
         | Returned c => Returned (Some c)
         | Raised message => Raised message
         end,
         snd (random_effect (subclip start (start + duration)) duration s r))).
Proof.
  intro probed. unfold create_random_effect_clip. fold probed.
  split; [|split]; intros Hp; rewrite Hp.
  - reflexivity.
  - intro Hlate. unfold video_subclip, bind_raise, bind, ret.
    assert (E : Qlt_bool video_duration start = true)
      by (apply Qlt_bool_iff; exact Hlate).
    rewrite E. eexists. reflexivity.
  - intro Hin. unfold video_subclip, bind_raise at 1, bind at 1, ret at 1.
    assert (E : Qlt_bool video_duration start = false)
      by (apply Qlt_bool_false_iff; exact Hin).
    rewrite E. unfold bind_raise, bind, ret.
    destruct (random_effect _ _ s r) as [[c|message] r1]; reflexivity.
Qed.

(** A probe in an excluded range is found by the test of the code. *)
Lemma excluded_probe_found (start duration : Q) (s : settings) (k : nat) :
  start + inject_Z (Z.of_nat k) * 0.5 < start + duration ->
  is_timestamp_excluded (start + inject_Z (Z.of_nat k) * 0.5)
    (excluded_timestamps s) = true ->
  existsb (fun t => is_timestamp_excluded t (excluded_timestamps s))
    (arange start (start + duration) 0.5) = true.
Proof.
  intros Hk Hex. apply existsb_exists. eexists. split; [|exact Hex].
  apply arange_probe_iff. exists k. split; [reflexivity|exact Hk].
Qed.



(** ** Drawing leaves the tape alone *)

Lemma keeps_tape_ret {A : Type} (a : A) : keeps_tape (ret a).
Proof. intro r. reflexivity. Qed.

Lemma keeps_tape_bind {A B : Type} (m : Rand A) (k : A -> Rand B) :
  keeps_tape m -> (forall a, keeps_tape (k a)) -> keeps_tape (bind m k).
Proof.
  intros Hm Hk r. unfold bind. specialize (Hm r).
  destruct (m r) as [a r1]. simpl in Hm. rewrite Hk. exact Hm.
Qed.

Lemma keeps_tape_random : keeps_tape random.
Proof. intro r. reflexivity. Qed.

Lemma keeps_tape_if {A : Type} (b : bool) (m1 m2 : Rand A) :
  keeps_tape m1 -> keeps_tape m2 -> keeps_tape (if b then m1 else m2).
Proof. destruct b; auto. Qed.

Lemma keeps_tape_bind_raise {A B : Type} (m : Rand (raising A))
    (k : A -> Rand (raising B)) :
  keeps_tape m -> (forall a, keeps_tape (k a)) -> keeps_tape (bind_raise m k).
Proof.
  intros Hm Hk. unfold bind_raise. apply keeps_tape_bind; [exact Hm|].
  intros [a|message]; [apply Hk|apply keeps_tape_ret].
Qed.

Create HintDb tape discriminated.
#[local] Hint Resolve keeps_tape_ret keeps_tape_bind keeps_tape_bind_raise
  keeps_tape_random keeps_tape_if : tape.

Lemma keeps_tape_uniform (a b : Q) : keeps_tape (uniform a b).
Proof. unfold uniform. auto with tape. Qed.

Lemma keeps_tape_randint (a b : Z) : keeps_tape (randint a b).
Proof. unfold randint. auto with tape. Qed.

Lemma keeps_tape_random_effect (sub : clip) (duration : Q) (s : settings) :
  keeps_tape (random_effect sub duration s).
Proof.
  unfold random_effect, choose_effect, create_freeze_frame_with_effects.
  apply keeps_tape_bind_raise; [auto with tape|].
  intros [| |]; auto 6 with tape.
Qed.

#[local] Hint Resolve keeps_tape_uniform keeps_tape_randint
  keeps_tape_random_effect : tape.

Lemma keeps_tape_create_random_effect_clip cancelled video_duration start
    duration s :
  keeps_tape (create_random_effect_clip cancelled video_duration start
                duration s).
Proof. unfold create_random_effect_clip. auto 7 with tape. Qed.

#[local] Hint Resolve keeps_tape_create_random_effect_clip : tape.

Lemma keeps_tape_repeat_loop n cancelled video_duration current_time
    segment_duration s clips :
  keeps_tape (repeat_loop n cancelled video_duration current_time
                segment_duration s clips).
Proof.
  revert clips. induction n as [|n IH]; intro clips; simpl; [auto with tape|].
  apply keeps_tape_if; [auto with tape|].
  apply keeps_tape_bind; [auto with tape|].
  intros [[c|]|message]; auto with tape.
Qed.

#[local] Hint Resolve keeps_tape_repeat_loop : tape.

Lemma keeps_tape_try_segment cancelled video_duration current_time
    segment_duration s clips :
  keeps_tape (try_segment cancelled video_duration current_time
                segment_duration s clips).
Proof.
  unfold try_segment. apply keeps_tape_bind; [auto with tape|].
  intros [[c|]|message]; [|auto with tape|auto with tape].
  apply keeps_tape_bind; [auto with tape|]. intro u.
  apply keeps_tape_if; [|auto with tape].
  apply keeps_tape_bind; [auto with tape|]. intros [k|]; auto with tape.
Qed.

#[local] Hint Resolve keeps_tape_try_segment : tape.

Lemma unit_tape_same (r r' : rng) :
  tape r' = tape r -> unit_tape r -> unit_tape r'.
Proof. unfold unit_tape. intros -> H. exact H. Qed.

Lemma unit_tape_after {A : Type} (m : Rand A) (r : rng) :
  keeps_tape m -> unit_tape r -> unit_tape (snd (m r)).
Proof. intros Hm Hr. eapply unit_tape_same; [apply Hm | exact Hr]. Qed.

(** [random.uniform(a, b)] stays between its bounds. *)
Lemma uniform_bounds (a b : Q) (r : rng) :
  unit_tape r -> a <= b ->
  a <= fst (uniform a b r) /\ fst (uniform a b r) <= b.
Proof.
  intros Hr Hab. unfold uniform, bind, ret, random. simpl.
  destruct (Hr (cursor r)) as [H0 H1].
  assert (Hd : 0 <= b - a) by lra.
  pose proof (Qmult_le_0_compat _ _ Hd H0).
  assert (Hm : (b - a) * tape r (cursor r) <= (b - a) * 1).
  { rewrite !(Qmult_comm (b - a)). apply Qmult_le_compat_r; assumption. }
  split; lra.
Qed.

(** ** The zone sampler *)

(** Below [max(1, .)] truncation and floor give the same count. *)
Lemma actual_segments_floor (section_duration : Q) (num_segments : Z) :
  actual_segments section_duration num_segments
  = Z.max 1 (Z.min num_segments (Qfloor (section_duration / 2))).
Proof.
  unfold actual_segments, int_of.
  destruct (section_duration / 2) as [p q]. simpl.
  destruct (Z_le_gt_dec 0 p) as [Hp|Hp].
  - rewrite Z.quot_div_nonneg by lia. reflexivity.
  - assert (Hq : (p ÷ Z.pos q <= 0)%Z).
    { replace p with (- - p)%Z by lia. rewrite Z.quot_opp_l by lia.
      pose proof (Z.quot_pos (- p) (Z.pos q)). lia. }
    assert (Hd : (p / Z.pos q < 0)%Z)
      by (apply Z.div_lt_upper_bound; lia).
    lia.
Qed.

Lemma actual_segments_pos (section_duration : Q) (num_segments : Z) :
  (1 <= actual_segments section_duration num_segments)%Z.
Proof. unfold actual_segments. lia. Qed.

(** C6. The sampler takes [max(1, min(count, floor(length / 2)))] steps of
    [length / actualCount]; from [current_time] it stops when less than
    2 s of the zone remain, and otherwise draws a candidate duration in
    [[2, min(4, remaining)]] and moves on by [step * u] with [u] in
    [[0.8, 1.2]], whatever became of the candidate. *)
Theorem sampler_cadence (fuel : nat) (cancelled : bool)
    (video_duration : Q) (s : settings)
    (zoneStart zoneEnd : Q) (targetSegmentCount : Z)
    (current_time : Q) (clips : list clip) (r : rng) :
  unit_tape r ->
  let actualCount :=
    Z.max 1 (Z.min targetSegmentCount (Qfloor ((zoneEnd - zoneStart) / 2))) in
  let step := (zoneEnd - zoneStart) / inject_Z actualCount in
  create_section_clips fuel cancelled video_duration zoneStart zoneEnd
    targetSegmentCount s r
  = section_loop fuel cancelled video_duration s zoneEnd step zoneStart [] r
  /\ (zoneEnd - current_time < 2 ->
      section_loop (S fuel) cancelled video_duration s zoneEnd step
        current_time clips r
      = (Some clips, r))
  /\ (2 <= zoneEnd - current_time -> cancelled = false ->
      exists segment_duration r1 clips' r2 u r3,
        uniform 2 (py_min 4 (zoneEnd - current_time)) r = (segment_duration, r1)
        /\ 2 <= segment_duration
        /\ segment_duration <= 4
        /\ segment_duration <= zoneEnd - current_time
        /\ try_segment cancelled video_duration current_time segment_duration
             s clips r1
           = (clips', r2)
        /\ uniform 0.8 1.2 r2 = (u, r3)
        /\ 0.8 <= u /\ u <= 1.2
        /\ section_loop (S fuel) cancelled video_duration s zoneEnd step
             current_time clips r
           = section_loop fuel cancelled video_duration s zoneEnd step
               (current_time + step * u) clips' r3).
Proof.
  intros Hr actualCount step.
  split; [|split].
  - unfold create_section_clips. rewrite actual_segments_floor. reflexivity.
  - intros Hrem. simpl.
    destruct (Qlt_bool current_time zoneEnd && negb cancelled); [|reflexivity].
    assert (E : Qlt_bool (zoneEnd - current_time) 2 = true)
      by (apply Qlt_bool_iff; assumption).
    rewrite E. reflexivity.
  - intros Hrem ->.
    assert (Hmin : 2 <= py_min 4 (zoneEnd - current_time))
      by (apply py_min_glb; lra).
    pose proof (uniform_bounds 2 _ r Hr Hmin) as [Hlo Hhi].
    pose proof (unit_tape_after _ r
                  (keeps_tape_uniform 2 (py_min 4 (zoneEnd - current_time)))
                  Hr) as Hr1.
    destruct (uniform 2 (py_min 4 (zoneEnd - current_time)) r)
      as [segment_duration r1] eqn:Edur.
    simpl in Hlo, Hhi, Hr1.
    pose proof (unit_tape_after _ r1
                  (keeps_tape_try_segment false video_duration current_time
                     segment_duration s clips) Hr1) as Hr2.
    destruct (try_segment false video_duration current_time segment_duration
                s clips r1)
      as [clips' r2] eqn:Etry.
    simpl in Hr2.
    assert (Hb : 0.8 <= 1.2) by lra.
    pose proof (uniform_bounds 0.8 1.2 r2 Hr2 Hb) as [Hu1 Hu2].
    destruct (uniform 0.8 1.2 r2) as [u r3] eqn:Eu. simpl in Hu1, Hu2.
    exists segment_duration, r1, clips', r2, u, r3.
    pose proof (py_min_le_l 4 (zoneEnd - current_time)).
    pose proof (py_min_le_r 4 (zoneEnd - current_time)).
    repeat split; try reflexivity; try assumption; try lra.
    simpl.
    assert (E1 : Qlt_bool current_time zoneEnd = true)
      by (apply Qlt_bool_iff; lra).
    assert (E2 : Qlt_bool (zoneEnd - current_time) 2 = false)
      by (apply Qlt_bool_false_iff; assumption).
    rewrite E1, E2. simpl.
    unfold bind at 1. rewrite Edur.
    unfold bind at 1. rewrite Etry.
    unfold bind at 1. rewrite Eu. reflexivity.
Qed.

Lemma constant_rng_unit : unit_tape (constant_rng 0.5).
Proof. intro i. simpl. split; unfold Qle; simpl; lia. Qed.

Lemma sampler_cadence_witness :
  create_section_clips 9 false 600 0 198 8 defaults (constant_rng 0.5)
  = section_loop 9 false 600 defaults 198
      ((198 - 0) / inject_Z (Z.max 1 (Z.min 8 (Qfloor ((198 - 0) / 2)))))
      0 [] (constant_rng 0.5)
  /\ exists segment_duration u clips' r3,
       2 <= segment_duration /\ segment_duration <= 4
       /\ 0.8 <= u /\ u <= 1.2
       /\ section_loop 9 false 600 defaults 198
            ((198 - 0) / inject_Z (Z.max 1 (Z.min 8 (Qfloor ((198 - 0) / 2)))))
            0 [] (constant_rng 0.5)
          = section_loop 8 false 600 defaults 198
              ((198 - 0) / inject_Z (Z.max 1 (Z.min 8 (Qfloor ((198 - 0) / 2)))))
              (0 + (198 - 0)
                   / inject_Z (Z.max 1 (Z.min 8 (Qfloor ((198 - 0) / 2)))) * u)
              clips' r3.
Proof.
  destruct (sampler_cadence 8 false 600 defaults 0 198 8 0 []
              (constant_rng 0.5) constant_rng_unit) as [H1 [_ H3]].
  split.
  - apply (proj1 (sampler_cadence 9 false 600 defaults 0 198 8 0 []
                    (constant_rng 0.5) constant_rng_unit)).
  - destruct H3 as (d & r1 & clips' & r2 & u & r3 & _ & Hd1 & Hd2 & _ & _ & _
                    & Hu1 & Hu2 & Heq);
      [unfold Qle; simpl; lia | reflexivity |].
    exists d, u, clips', r3. repeat split; assumption.
Defined.

(** The loop returns once the fuel exceeds the number of minimal
    advances, [0.8 * step] each, that fit between [current_time] and the
    end of the zone. *)
Lemma section_loop_returns (k : nat) (cancelled : bool)
    (video_duration : Q) (s : settings) (section_end step : Q) :
  0 < step ->
  forall (current_time : Q) (clips : list clip) (r : rng) (fuel : nat),
    unit_tape r ->
    section_end - current_time <= inject_Z (Z.of_nat k) * (0.8 * step) ->
    (k < fuel)%nat ->
    exists clips' r',
      section_loop fuel cancelled video_duration s section_end step
        current_time clips r
      = (Some clips', r').
Proof.
  intros Hstep. induction k as [|k IH]; intros cur clips r fuel Hr Hk Hfuel.
  - destruct fuel as [|fuel]; [lia|]. simpl.
    change (inject_Z (Z.of_nat 0)) with 0 in Hk.
    assert (E : Qlt_bool cur section_end = false)
      by (apply Qlt_bool_false_iff; lra).
    rewrite E. simpl. do 2 eexists. reflexivity.
  - destruct fuel as [|fuel]; [lia|]. simpl.
    destruct (Qlt_bool cur section_end && negb cancelled);
      [|do 2 eexists; reflexivity].
    destruct (Qlt_bool (section_end - cur) 2); [do 2 eexists; reflexivity|].
    unfold bind.
    pose proof (unit_tape_after _ r
                  (keeps_tape_uniform 2 (py_min 4 (section_end - cur))) Hr)
      as Hr1.
    destruct (uniform 2 (py_min 4 (section_end - cur)) r) as [d r1].
    simpl in Hr1.
    pose proof (unit_tape_after _ r1
                  (keeps_tape_try_segment cancelled video_duration cur d s
                     clips) Hr1) as Hr2.
    destruct (try_segment cancelled video_duration cur d s clips r1)
      as [clips' r2].
    simpl in Hr2.
    assert (Hb : 0.8 <= 1.2) by lra.
    pose proof (uniform_bounds 0.8 1.2 r2 Hr2 Hb) as [Hu _].
    pose proof (unit_tape_after _ r2 (keeps_tape_uniform 0.8 1.2) Hr2) as Hr3.
    destruct (uniform 0.8 1.2 r2) as [u r3]. simpl in Hu, Hr3.
    apply IH; [assumption| |lia].
    rewrite Nat2Z.inj_succ in Hk. unfold Z.succ in Hk.
    rewrite inject_Z_plus in Hk.
    assert (Hadv : step * 0.8 <= step * u)
      by (apply Qmult_le_l; assumption).
    change (inject_Z 1) with 1 in Hk. lra.
Qed.

(** C10. For a zone with [zoneStart <= zoneEnd] the sampling loop returns
    whatever the draws: on a zone of positive length every advance is at
    least [0.8 * step > 0], so twice [actualCount] turns, and one more
    test, are always enough; on a zone of zero length the loop exits at
    its first test, without drawing. *)
Theorem sampling_terminates (cancelled : bool) (video_duration : Q)
    (s : settings) (zoneStart zoneEnd : Q) (targetSegmentCount : Z)
    (r : rng) :
  zoneStart <= zoneEnd ->
  unit_tape r ->
  let actualCount := actual_segments (zoneEnd - zoneStart) targetSegmentCount in
  let step := (zoneEnd - zoneStart) / inject_Z actualCount in
  (zoneStart < zoneEnd -> 0 < 0.8 * step)
  /\ (forall fuel, (Z.to_nat (2 * actualCount) < fuel)%nat ->
      exists clips r',
        create_section_clips fuel cancelled video_duration zoneStart zoneEnd
          targetSegmentCount s r = (Some clips, r'))
  /\ (zoneStart == zoneEnd ->
      forall fuel,
        create_section_clips (S fuel) cancelled video_duration zoneStart
          zoneEnd targetSegmentCount s r = (Some [], r)).
Proof.
  intros Hzone Hr actualCount step.
  pose proof (actual_segments_pos (zoneEnd - zoneStart) targetSegmentCount)
    as Hcount.
  fold actualCount in Hcount.
  assert (Hq : 0 < inject_Z actualCount).
  { change 0 with (inject_Z 0). rewrite <- Zlt_Qlt. lia. }
  assert (Hstep : zoneStart < zoneEnd -> 0 < step).
  { intro Hlt. unfold step. apply Qlt_shift_div_l; [assumption|]. lra. }
  split; [|split].
  - intro Hlt. specialize (Hstep Hlt). lra.
  - intros fuel Hfuel. unfold create_section_clips.
    fold actualCount. fold step.
    destruct (Qlt_le_dec zoneStart zoneEnd) as [Hlt|Hge].
    + apply section_loop_returns with (k := Z.to_nat (2 * actualCount));
        [auto | assumption | | assumption].
      rewrite Z2Nat.id by lia. rewrite inject_Z_mult.
      change (inject_Z 2) with 2.
      assert (E : 2 * inject_Z actualCount * (0.8 * step)
                  == 1.6 * (zoneEnd - zoneStart)).
      { unfold step. field. lra. }
      rewrite E. lra.
    + destruct fuel as [|fuel]; [lia|]. simpl.
      assert (E : Qlt_bool zoneStart zoneEnd = false)
        by (apply Qlt_bool_false_iff; assumption).
      rewrite E. simpl. do 2 eexists. reflexivity.
  - intros Heq fuel. unfold create_section_clips. simpl.
    assert (E : Qlt_bool zoneStart zoneEnd = false)
      by (apply Qlt_bool_false_iff; lra).
    rewrite E. reflexivity.
Qed.

Lemma sampling_terminates_witness :
  exists clips r',
    create_section_clips 17 false 600 0 198 8 defaults (constant_rng 0.5)
    = (Some clips, r').
Proof.
  apply (sampling_terminates false 600 defaults 0 198 8 (constant_rng 0.5)).
  - unfold Qle; simpl; lia.
  - exact constant_rng_unit.
  - vm_compute. lia.
Defined.

(** ** Sums of durations *)

Section Sums.
Variable f : clip -> Q.

Lemma fold_sum_acc (l : list clip) (a : Q) :
  fold_sum f l a == a + fold_sum f l 0.
Proof.
  revert a. induction l as [|c l IH]; intro a; simpl.
  - unfold fold_sum. simpl. lra.
  - change (fold_sum f l (a + f c) == a + fold_sum f l (0 + f c)).
    rewrite (IH (a + f c)), (IH (0 + f c)). lra.
Qed.

Lemma fold_sum_cons (c : clip) (l : list clip) :
  fold_sum f (c :: l) 0 == f c + fold_sum f l 0.
Proof.
  change (fold_sum f l (0 + f c) == f c + fold_sum f l 0).
  rewrite fold_sum_acc. lra.
Qed.

Lemma fold_sum_app (l1 l2 : list clip) :
  fold_sum f (l1 ++ l2) 0 == fold_sum f l1 0 + fold_sum f l2 0.
Proof.
  unfold fold_sum at 1. rewrite fold_left_app. apply fold_sum_acc.
Qed.

Lemma fold_sum_nonneg (l : list clip) :
  Forall (fun c => 0 <= f c) l -> 0 <= fold_sum f l 0.
Proof.
  induction 1 as [|c l Hc Hl IH].
  - unfold fold_sum. simpl. lra.
  - rewrite fold_sum_cons. lra.
Qed.
End Sums.

Lemma sum_durations_app (l1 l2 : list clip) :
  sum_durations (l1 ++ l2) == sum_durations l1 + sum_durations l2.
Proof. apply fold_sum_app. Qed.

Lemma sum_durations_cons (c : clip) (l : list clip) :
  sum_durations (c :: l) == clip_duration c + sum_durations l.
Proof. apply fold_sum_cons. Qed.

Lemma sum_durations_last (l : list clip) (c : clip) :
  sum_durations (l ++ [c]) == sum_durations l + clip_duration c.
Proof.
  rewrite sum_durations_app, sum_durations_cons. unfold sum_durations. simpl. lra.
Qed.

Lemma sum_spans_app (l1 l2 : list clip) :
  sum_spans (l1 ++ l2) == sum_spans l1 + sum_spans l2.
Proof. apply fold_sum_app. Qed.

Lemma sum_spans_cons (c : clip) (l : list clip) :
  sum_spans (c :: l) == source_span c + sum_spans l.
Proof. apply fold_sum_cons. Qed.

(** ** Duration fitting *)

Lemma pop_nil : pop [] = None.
Proof. reflexivity. Qed.

Lemma pop_last (l : list clip) (c : clip) : pop (l ++ [c]) = Some (l, c).
Proof. unfold pop. rewrite rev_app_distr. simpl. now rewrite rev_involutive. Qed.

(** A list is empty or ends in some clip. *)
Lemma list_end (l : list clip) : l = [] \/ exists l' c, l = l' ++ [c].
Proof.
  destruct l as [|c l] using rev_ind; [now left|right]. eauto.
Qed.

(** What the trimming loop does: it cuts a suffix off the list, clip by
    clip from the end; each clip went while the excess left by the clips
    after it was still positive, and the loop stopped on an excess that
    is not positive or on the empty list. *)
Lemma trim_loop_spec (fuel : nat) :
  forall (all_segments : list clip) (trim_duration : Q),
    (List.length all_segments <= fuel)%nat ->
    exists kept dropped,
      all_segments = kept ++ dropped
      /\ snd (trim_loop fuel trim_duration all_segments) = kept
      /\ fst (trim_loop fuel trim_duration all_segments)
         == trim_duration - sum_durations dropped
      /\ (forall before c after,
            dropped = before ++ c :: after ->
            0 < trim_duration - sum_durations after)
      /\ (kept = [] \/ trim_duration - sum_durations dropped <= 0).
Proof.
  assert (Hnone : forall t : Q,
            forall before c after,
              @nil clip = before ++ c :: after -> 0 < t - sum_durations after).
  { intros t before c after H. destruct before; discriminate. }
  assert (Hzero : sum_durations [] == 0) by reflexivity.
  induction fuel as [|fuel IH]; intros l t Hlen.
  - destruct l; [|simpl in Hlen; lia].
    exists [], []. simpl.
    split; [reflexivity|]. split; [reflexivity|].
    split; [lra|]. split; [apply Hnone|now left].
  - simpl. destruct (Qlt_bool 0 t) eqn:Et.
    + destruct (list_end l) as [->|(l' & c & ->)].
      * rewrite pop_nil. exists [], []. simpl.
        split; [reflexivity|]. split; [reflexivity|].
        split; [lra|]. split; [apply Hnone|now left].
      * rewrite pop_last.
        rewrite length_app in Hlen. simpl in Hlen.
        destruct (IH l' (t - clip_duration c)) as
          (kept & dropped & Hsplit & Hsnd & Hfst & Hwhile & Hstop); [lia|].
        exists kept, (dropped ++ [c]).
        pose proof (sum_durations_last dropped c) as Hsum.
        split; [rewrite Hsplit; now rewrite app_assoc|].
        split; [exact Hsnd|].
        split; [rewrite Hfst; lra|].
        split.
        -- intros before x after H.
           destruct (list_end after) as [->|(after' & y & ->)].
           ++ prop_tests. lra.
           ++ change (before ++ x :: after' ++ [y])
                with (before ++ (x :: after') ++ [y]) in H.
              rewrite app_assoc in H. apply app_inj_tail in H.
              destruct H as [H ->].
              specialize (Hwhile _ _ _ H).
              pose proof (sum_durations_last after' y). lra.
        -- destruct Hstop as [Hstop|Hstop]; [now left|right]. lra.
    + exists l, []. rewrite app_nil_r. prop_tests. simpl.
      split; [reflexivity|]. split; [reflexivity|].
      split; [lra|]. split; [apply Hnone|right; lra].
Qed.

(** C1, as the code has it.  The excess that starts the trimming is the
    duration of the main sequence plus the duration of every included
    clip, whatever its tag, minus the target.  The trimming cuts a suffix
    off the main sequence, last clip first; each clip goes while the
    excess left by the clips popped before it is positive, and the loop
    stops on an excess that is not positive or on the empty sequence.
    The [end]-tagged included clips follow the kept part untouched. *)
Theorem trimming_law (all_segments : list clip)
    (included_clips : list (clip * string)) (target_duration : Q) :
  let excess :=
    sum_durations all_segments + sum_durations (map fst included_clips)
    - target_duration in
  trim_excess all_segments included_clips target_duration = excess
  /\ exists kept dropped,
       all_segments = kept ++ dropped
       /\ trim_segments all_segments included_clips target_duration = kept
       /\ fit_timeline all_segments included_clips target_duration
          = kept ++ included_end_clips included_clips
       /\ (forall before c after,
             dropped = before ++ c :: after ->
             0 < excess - sum_durations after)
       /\ (kept = [] \/ excess - sum_durations dropped <= 0).
Proof.
  intro excess. split; [reflexivity|].
  unfold fit_timeline, trim_segments.
  destruct (Qlt_bool target_duration _) eqn:E.
  - destruct (trim_loop_spec (List.length all_segments) all_segments
                (trim_excess all_segments included_clips target_duration)
                (le_n _))
      as (kept & dropped & Hsplit & Hsnd & _ & Hwhile & Hstop).
    exists kept, dropped. rewrite Hsnd. auto.
  - exists all_segments, []. rewrite app_nil_r. prop_tests.
    split; [reflexivity|]. split; [reflexivity|]. split; [reflexivity|].
    split.
    + intros before c after H. destruct before; discriminate.
    + right. unfold excess. change (sum_durations []) with 0. lra.
Qed.

(** C1 as stated fails: with one included range tagged [beginning] the
    excess of the code (10.5 s) is not the excess of the [end]-tagged
    clips (6.5 s), and the code pops one clip more than that excess
    asks for. *)
Lemma excess_counts_every_included_clip :
  exists main included r',
    assemble 9 false 600 12 with_beginning_range (constant_rng 0.5)
    = (Some (main, included), r')
    /\ included_end_clips included = []
    /\ trim_excess main included 12 == 10.5
    /\ claimed_excess main included 12 == 6.5
    /\ List.length (fit_timeline main included 12) = 2%nat
    /\ List.length (claimed_fit_timeline main included 12) = 3%nat.
Proof.
  do 3 eexists. split; [vm_compute; reflexivity|].
  repeat split; vm_compute; reflexivity.
Qed.

(** ** What the clips of a run look like *)


(** A clip that [create_random_effect_clip] returns comes from the effect
    code, run on the window of the candidate. *)
Lemma create_random_effect_clip_returned (cancelled : bool)
    (video_duration start duration : Q) (s : settings) (r : rng) (c : clip) :
  fst (create_random_effect_clip cancelled video_duration start duration s r)
  = Returned (Some c) ->
  cancelled = false
  /\ existsb (fun t => is_timestamp_excluded t (excluded_timestamps s))
       (arange start (start + duration) 0.5) = false
  /\ start <= video_duration
  /\ fst (random_effect (subclip start (start + duration)) duration s r)
     = Returned c.
Proof.
  destruct cancelled; [discriminate|].
  destruct (create_random_effect_clip_cases video_duration start duration s r)
    as (Hhit & Hlate & Hclear).
  destruct (existsb _ (arange start (start + duration) 0.5)) eqn:E.
  - rewrite (Hhit eq_refl). discriminate.
  - destruct (Qlt_le_dec video_duration start) as [Hlt|Hle].
    + destruct (Hlate eq_refl Hlt) as [message ->]. discriminate.
    + rewrite (Hclear eq_refl Hle). cbn [fst].
      destruct (fst (random_effect _ _ s r)) as [c'|message];
        [|discriminate].
      intros [= <-]. auto.
Qed.


Lemma create_random_effect_clip_window (cancelled : bool)
    (video_duration start duration : Q) (s : settings) (r : rng) (c : clip) :
  fst (create_random_effect_clip cancelled video_duration start duration s r)
  = Returned (Some c) ->
  t_start c = start /\ t_end c = start + duration.
Proof.
  intro Hmade.
  apply create_random_effect_clip_returned in Hmade as (_ & _ & _ & Hc).
  apply random_effect_window in Hc. exact Hc.
Qed.

(** A property of every clip that [create_random_effect_clip] can make
    inside a zone holds of every clip the sampler returns. *)
Section SamplerInvariant.

Variable P : clip -> Prop.
Variables (cancelled : bool) (video_duration : Q) (s : settings).
Variables section_start section_end step : Q.

Hypothesis step_nonneg : 0 <= step.
Hypothesis made_clip :
  forall current_time segment_duration r c,
    section_start <= current_time ->
    2 <= segment_duration ->
    current_time + segment_duration <= section_end ->
    fst (create_random_effect_clip cancelled video_duration current_time
           segment_duration s r)
    = Returned (Some c) ->
    P c.

Lemma repeat_loop_invariant (n : nat) (current_time segment_duration : Q) :
  section_start <= current_time ->
  2 <= segment_duration ->
  current_time + segment_duration <= section_end ->
  forall clips r,
    Forall P clips ->
    Forall P (fst (repeat_loop n cancelled video_duration current_time
                     segment_duration s clips r)).
Proof.
  intros H1 H2 H3. induction n as [|n IH]; intros clips r Hclips; simpl.
  - exact Hclips.
  - destruct cancelled eqn:Ec; [exact Hclips|].
    unfold bind.
    pose proof (made_clip current_time segment_duration r) as Hmade.
    destruct (create_random_effect_clip false video_duration current_time
                segment_duration s r)
      as [[[c|]|message] r1]; simpl in Hmade; [| |exact Hclips]; apply IH; auto.
    apply Forall_app. split; [assumption|]. constructor; auto.
Qed.

Lemma try_segment_invariant (current_time segment_duration : Q) :
  section_start <= current_time ->
  2 <= segment_duration ->
  current_time + segment_duration <= section_end ->
  forall clips r,
    Forall P clips ->
    Forall P (fst (try_segment cancelled video_duration current_time
                     segment_duration s clips r)).
Proof.
  intros H1 H2 H3 clips r Hclips. unfold try_segment, bind.
  pose proof (made_clip current_time segment_duration r) as Hmade.
  destruct (create_random_effect_clip cancelled video_duration current_time
              segment_duration s r) as [[[c|]|message] r1]; simpl in Hmade;
    [|exact Hclips|exact Hclips].
  assert (Hmore : Forall P (clips ++ [c])).
  { apply Forall_app. split; [assumption|]. constructor; auto. }
  destruct (random r1) as [u r2].
  destruct (Qlt_bool u (repeat_probability s)); [|exact Hmore].
  destruct (randint 1 (max_repeats s) r2) as [[k|] r3]; [|exact Hmore].
  apply repeat_loop_invariant; assumption.
Qed.

Lemma section_loop_invariant (fuel : nat) :
  forall current_time clips r clips' r',
    unit_tape r ->
    section_start <= current_time ->
    Forall P clips ->
    section_loop fuel cancelled video_duration s section_end step
      current_time clips r
    = (Some clips', r') ->
    Forall P clips'.
Proof.
  induction fuel as [|fuel IH]; intros cur clips r clips' r' Hr Hcur Hclips;
    simpl; [discriminate|].
  destruct (Qlt_bool cur section_end && negb cancelled);
    [|intros [= <- <-]; exact Hclips].
  destruct (Qlt_bool (section_end - cur) 2) eqn:Erem;
    [intros [= <- <-]; exact Hclips|].
  prop_tests. unfold bind.
  assert (Hmin : 2 <= py_min 4 (section_end - cur))
    by (apply py_min_glb; lra).
  pose proof (uniform_bounds 2 _ r Hr Hmin) as [Hlo Hhi].
  pose proof (unit_tape_after _ r
                (keeps_tape_uniform 2 (py_min 4 (section_end - cur))) Hr)
    as Hr1.
  pose proof (py_min_le_r 4 (section_end - cur)) as Hfit.
  destruct (uniform 2 (py_min 4 (section_end - cur)) r) as [d r1].
  simpl in Hlo, Hhi, Hr1.
  pose proof (try_segment_invariant cur d) as Htry.
  pose proof (unit_tape_after _ r1
                (keeps_tape_try_segment cancelled video_duration cur d s clips)
                Hr1) as Hr2.
  specialize (Htry Hcur Hlo ltac:(lra) clips r1 Hclips).
  destruct (try_segment cancelled video_duration cur d s clips r1)
    as [clips1 r2].
  simpl in Htry, Hr2.
  assert (Hb : 0.8 <= 1.2) by lra.
  pose proof (uniform_bounds 0.8 1.2 r2 Hr2 Hb) as [Hu _].
  pose proof (unit_tape_after _ r2 (keeps_tape_uniform 0.8 1.2) Hr2) as Hr3.
  destruct (uniform 0.8 1.2 r2) as [u r3]. simpl in Hu, Hr3.
  apply IH; [assumption| |assumption].
  assert (0 <= step * u) by (apply Qmult_le_0_compat; lra).
  lra.
Qed.

End SamplerInvariant.

Lemma keeps_tape_section_loop (fuel : nat) cancelled video_duration s
    section_end step :
  forall current_time clips r clips' r',
    section_loop fuel cancelled video_duration s section_end step
      current_time clips r
    = (Some clips', r') ->
    tape r' = tape r.
Proof.
  induction fuel as [|fuel IH]; intros cur clips r clips' r'; simpl;
    [discriminate|].
  destruct (Qlt_bool cur section_end && negb cancelled);
    [|intros [= <- <-]; reflexivity].
  destruct (Qlt_bool (section_end - cur) 2); [intros [= <- <-]; reflexivity|].
  unfold bind.
  pose proof (keeps_tape_uniform 2 (py_min 4 (section_end - cur)) r) as H1.
  destruct (uniform 2 (py_min 4 (section_end - cur)) r) as [d r1].
  pose proof (keeps_tape_try_segment cancelled video_duration cur d s clips r1)
    as H2.
  destruct (try_segment cancelled video_duration cur d s clips r1)
    as [clips1 r2].
  pose proof (keeps_tape_uniform 0.8 1.2 r2) as H3.
  destruct (uniform 0.8 1.2 r2) as [u r3]. simpl in *.
  intro H. apply IH in H. congruence.
Qed.

Lemma create_section_clips_invariant (P : clip -> Prop) (fuel : nat)
    (cancelled : bool) (video_duration section_start section_end : Q)
    (num_segments : Z) (s : settings) (r : rng) (clips : list clip)
    (r' : rng) :
  (forall current_time segment_duration r c,
     section_start <= current_time ->
     2 <= segment_duration ->
     current_time + segment_duration <= section_end ->
     fst (create_random_effect_clip cancelled video_duration current_time
            segment_duration s r)
     = Returned (Some c) ->
     P c) ->
  unit_tape r ->
  create_section_clips fuel cancelled video_duration section_start section_end
    num_segments s r
  = (Some clips, r') ->
  Forall P clips /\ unit_tape r'.
Proof.
  intros HP Hr Hrun. split.
  - unfold create_section_clips in Hrun.
    destruct (Qlt_le_dec section_start section_end) as [Hlt|Hge].
    + refine (section_loop_invariant P cancelled video_duration s
                section_start section_end
                _ _ HP fuel _ _ _ _ _ Hr _ _ Hrun);
        [ | lra | constructor].
      pose proof (actual_segments_pos (section_end - section_start) num_segments).
      apply Qle_shift_div_l; [|lra].
      change 0 with (inject_Z 0). rewrite <- Zlt_Qlt. lia.
    + destruct fuel as [|fuel]; [discriminate|]. simpl in Hrun.
      assert (E : Qlt_bool section_start section_end = false)
        by (apply Qlt_bool_false_iff; assumption).
      rewrite E in Hrun. simpl in Hrun. injection Hrun as <- <-. constructor.
  - eapply unit_tape_same; [|exact Hr].
    eapply keeps_tape_section_loop. exact Hrun.
Qed.

(** What one turn of the loop over the included ranges makes of a range
    of positive length: a clip of the effect code on the window of the
    range, or nothing when the collaborator or the effect code raises. *)
Lemma included_clip_cases (video_duration start end_ : Q) (s : settings)
    (r : rng) :
  (video_duration < start ->
   exists message,
     bind_raise (ret (video_subclip video_duration start end_))
       (fun sub => random_effect sub (end_ - start) s) r
     = (Raised message, r))
  /\ (start <= video_duration ->
      bind_raise (ret (video_subclip video_duration start end_))
        (fun sub => random_effect sub (end_ - start) s) r
      = random_effect (subclip start end_) (end_ - start) s r).
Proof.
  unfold video_subclip, bind_raise at 1, bind at 1, ret at 1.
  unfold bind_raise at 1, bind at 1, ret at 1. split; intro H.
  - assert (E : Qlt_bool video_duration start = true)
      by (apply Qlt_bool_iff; exact H).
    rewrite E. eexists. reflexivity.
  - assert (E : Qlt_bool video_duration start = false)
      by (apply Qlt_bool_false_iff; exact H).
    rewrite E. reflexivity.
Qed.









(** The trimming keeps a prefix of the main sequence. *)
Lemma trimming_prefix (all_segments : list clip)
    (included_clips : list (clip * string)) (target_duration : Q) :
  exists dropped,
    all_segments
    = trim_segments all_segments included_clips target_duration ++ dropped.
Proof.
  unfold trim_segments.
  destruct (Qlt_bool target_duration _).
  - destruct (trim_loop_spec (List.length all_segments) all_segments
                (trim_excess all_segments included_clips target_duration)
                (le_n _))
      as (kept & dropped & Hsplit & Hsnd & _).
    exists dropped. rewrite Hsnd. exact Hsplit.
  - exists []. now rewrite app_nil_r.
Qed.




(** ** Validation of the probabilities *)

Lemma isclose_one_iff (total : Q) :
  isclose total 1.0 = false <-> 0.00001001 < Qabs (total - 1).
Proof.
  unfold isclose.
  assert (Ht : atol + rtol * Qabs 1.0 == 0.00001001) by reflexivity.
  assert (Ha : Qabs (total - 1.0) == Qabs (total - 1))
    by (apply Qabs_wd; lra).
  rewrite Qle_bool_false_iff, Ht, Ha. reflexivity.
Qed.

(** C3, as the code has it.  The processor refuses the settings when one
    of the two sums is further from 1.0 than the default tolerance of
    [np.isclose], 1e-8 + 1e-5: a sum that is off by 1.01e-5 or more is
    refused, two sums within 1e-5 are accepted.  It refuses after opening
    the video and the audio file, without drawing or doing anything else.
    The tolerance 0.01 is the one of the check in [start_processing],
    which refuses to start a run before the processor exists: a sum off
    by 0.010001 or more is refused there, two sums within 0.009999 are
    not.  (The sums are exact here and sums of doubles in the program,
    which can differ in their last digits; the statement leaves out the
    sums that are closer than that to a tolerance.) *)
Theorem validation_law (fuel : nat) (video_duration target_duration : Q)
    (s : settings) (r : rng) :
  let effect_total := 0 + effect_slowmo s + effect_freeze s + effect_normal s in
  let segment_total := 0 + dist_beginning s + dist_middle s + dist_end s in
  (0.0000101 <= Qabs (effect_total - 1)
   \/ 0.0000101 <= Qabs (segment_total - 1) ->
   validate_settings s <> None)
  /\ (Qabs (effect_total - 1) <= 0.00001 ->
      Qabs (segment_total - 1) <= 0.00001 ->
      validate_settings s = None)
  /\ (forall message,
        validate_settings s = Some message ->
        (message = "Effect probabilities must total 100%"%string
         \/ message = "Segment distribution must total 100%"%string)
        /\ process_video fuel false video_duration target_duration s r
           = (Some ([OpenVideo; OpenAudio], Failed message), r))
  /\ (0.010001 <= Qabs (effect_total - 1)
      \/ 0.010001 <= Qabs (segment_total - 1) ->
      start_processing_refuses s = true)
  /\ (Qabs (effect_total - 1) <= 0.009999 ->
      Qabs (segment_total - 1) <= 0.009999 ->
      start_processing_refuses s = false)
  /\ (0.0000101 <= Qabs (effect_total - 1)
      \/ 0.0000101 <= Qabs (segment_total - 1) ->
      Qabs (effect_total - 1) <= 0.009999 ->
      Qabs (segment_total - 1) <= 0.009999 ->
      start_processing_refuses s = false
      /\ exists message,
           process_video fuel false video_duration target_duration s r
           = (Some ([OpenVideo; OpenAudio], Failed message), r)).
Proof.
  intros effect_total segment_total.
  pose proof (isclose_one_iff effect_total) as He.
  pose proof (isclose_one_iff segment_total) as Hd.
  assert (Ha : forall x, Qabs (x - 1.0) == Qabs (x - 1))
    by (intro x; apply Qabs_wd; lra).
  assert (Hreject : 0.0000101 <= Qabs (effect_total - 1)
                    \/ 0.0000101 <= Qabs (segment_total - 1) ->
                    validate_settings s <> None).
  { unfold validate_settings. fold effect_total. fold segment_total.
    intros [H|H].
    - assert (E : isclose effect_total 1.0 = false) by (apply He; lra).
      rewrite E. discriminate.
    - assert (E : isclose segment_total 1.0 = false) by (apply Hd; lra).
      rewrite E. destruct (isclose effect_total 1.0); discriminate. }
  assert (Hrun : forall message,
            validate_settings s = Some message ->
            process_video fuel false video_duration target_duration s r
            = (Some ([OpenVideo; OpenAudio], Failed message), r)).
  { intros message Hv. unfold process_video. rewrite Hv. reflexivity. }
  assert (Hpass : Qabs (effect_total - 1) <= 0.009999 ->
                  Qabs (segment_total - 1) <= 0.009999 ->
                  start_processing_refuses s = false).
  { intros H1 H2. unfold start_processing_refuses.
    fold effect_total. fold segment_total.
    apply orb_false_iff. split; apply Qlt_bool_false_iff; rewrite Ha; lra. }
  split; [exact Hreject|]. split; [|split; [|split; [|split]]].
  - intros H1 H2. unfold validate_settings.
    fold effect_total. fold segment_total.
    destruct (isclose effect_total 1.0).
    + destruct (isclose segment_total 1.0); [reflexivity|].
      pose proof (proj1 Hd eq_refl). lra.
    + pose proof (proj1 He eq_refl). lra.
  - intros message Hv. split; [|apply Hrun; exact Hv].
    unfold validate_settings in Hv.
    destruct (isclose _ 1.0); simpl in Hv; [|left; congruence].
    destruct (isclose _ 1.0); simpl in Hv; [discriminate|right; congruence].
  - unfold start_processing_refuses. fold effect_total. fold segment_total.
    intros [H|H]; apply orb_true_iff; [left|right];
      apply Qlt_bool_iff; rewrite Ha; lra.
  - exact Hpass.
  - intros Hoff H1 H2. split; [apply Hpass; assumption|].
    apply Hreject in Hoff.
    destruct (validate_settings s) as [message|]; [|contradiction].
    exists message. apply Hrun. reflexivity.
Qed.

(** C3 as stated fails: effect probabilities that sum to 1.005 are within
    0.01 of 1.0 and pass the check of [start_processing], yet the
    processor refuses them, and only after it has opened both files. *)
Lemma rejected_within_one_percent :
  Qabs (0 + effect_slowmo slightly_off + effect_freeze slightly_off
        + effect_normal slightly_off - 1) <= 0.01
  /\ Qabs (0 + dist_beginning slightly_off + dist_middle slightly_off
           + dist_end slightly_off - 1) <= 0.01
  /\ start_processing_refuses slightly_off = false
  /\ process_video 30 false 600 60 slightly_off (constant_rng 0.5)
     = (Some ([OpenVideo; OpenAudio],
              Failed "Effect probabilities must total 100%"),
        constant_rng 0.5).
Proof.
  split; [vm_compute; discriminate|].
  split; [vm_compute; discriminate|].
  split; reflexivity.
Qed.

(** ** Included ranges *)

Lemma random_effect_same_settings (sub : clip) (duration : Q)
    (s s' : settings) (r : rng) :
  same_effect_settings s s' ->
  random_effect sub duration s' r = random_effect sub duration s r.
Proof.
  intros (H1 & H2 & H3 & H4 & H5 & H6 & H7).
  unfold random_effect, choose_effect, create_freeze_frame_with_effects.
  rewrite H1, H2, H3, H4, H5, H6, H7. reflexivity.
Qed.

Lemma included_loop_same_settings (cancelled : bool) (video_duration : Q)
    (s s' : settings) :
  same_effect_settings s s' ->
  forall ranges included r,
    included_loop cancelled video_duration ranges s' included r
    = included_loop cancelled video_duration ranges s included r.
Proof.
  intro Hs. induction ranges as [|[[start end_] position] rest IH];
    intros included r; simpl; [reflexivity|].
  destruct cancelled; [reflexivity|].
  destruct (Qle_bool (end_ - start) 0); [apply IH|].
  unfold bind at 1. symmetry. unfold bind at 1. symmetry.
  assert (E : bind_raise (ret (video_subclip video_duration start end_))
                (fun sub => random_effect sub (end_ - start) s') r
              = bind_raise (ret (video_subclip video_duration start end_))
                  (fun sub => random_effect sub (end_ - start) s) r).
  { unfold bind_raise, bind, ret.
    destruct (video_subclip video_duration start end_); [|reflexivity].
    apply random_effect_same_settings. exact Hs. }
  rewrite E. clear E.
  destruct (bind_raise _ _ r) as [[c|message] r1]; apply IH.
Qed.

(** One turn of the loop on a range of positive length that starts
    within the source. *)
Lemma included_loop_step (video_duration start end_ : Q) (position : string)
    (rest : list (Q * Q * string)) (s : settings)
    (included : list (clip * string)) (r : rng) :
  has_length (start, end_, position) = true ->
  start <= video_duration ->
  included_loop false video_duration ((start, end_, position) :: rest) s
    included r
  = included_loop false video_duration rest s
      (match fst (random_effect (subclip start end_) (end_ - start) s r) with
       | Returned c => included ++ [(c, placed_tag position)]
       | Raised _ => included
       end)
      (snd (random_effect (subclip start end_) (end_ - start) s r)).
Proof.
  intros Hlen Hin. simpl in Hlen. apply negb_true_iff in Hlen.
  simpl. rewrite Hlen. unfold bind at 1.
  rewrite (proj2 (included_clip_cases video_duration start end_ s r) Hin).
  destruct (random_effect (subclip start end_) (end_ - start) s r)
    as [[c|message] r1]; reflexivity.
Qed.

(** A range that starts after the end of the source is passed over,
    without a draw. *)
Lemma included_loop_skip (video_duration start end_ : Q) (position : string)
    (rest : list (Q * Q * string)) (s : settings)
    (included : list (clip * string)) (r : rng) :
  video_duration < start ->
  included_loop false video_duration ((start, end_, position) :: rest) s
    included r
  = included_loop false video_duration rest s included r.
Proof.
  intro Hlate. simpl.
  destruct (Qle_bool (end_ - start) 0); [reflexivity|].
  unfold bind at 1.
  destruct (proj1 (included_clip_cases video_duration start end_ s r) Hlate)
    as [message ->].
  reflexivity.
Qed.

(** With settings under which the effect code does not raise, the loop
    makes one clip of every range of positive length that starts within
    the source. *)
Lemma included_loop_windows (video_duration : Q) (s : settings) :
  0 < effect_slowmo s + effect_freeze s + effect_normal s ->
  ~ slowmo_speed s == 0 ->
  forall ranges included r,
    Forall (fun range => fst (fst range) <= video_duration) ranges ->
    map clip_window_tag
      (fst (included_loop false video_duration ranges s included r))
    = map clip_window_tag included
      ++ map range_window_tag (filter has_length ranges).
Proof.
  intros Htotal Hspeed.
  induction ranges as [|[[start end_] position] rest IH];
    intros included r Hin; [simpl; now rewrite app_nil_r|].
  inversion Hin as [|? ? Hstart Hrest]; subst. simpl in Hstart.
  destruct (has_length (start, end_, position)) eqn:Hlen.
  - rewrite included_loop_step by assumption.
    destruct (random_effect_returns (subclip start end_) (end_ - start) s r
                Htotal Hspeed) as [c Hc].
    rewrite Hc. apply random_effect_window in Hc as [Hs He].
    rewrite IH by exact Hrest. cbn [filter]. rewrite Hlen.
    rewrite map_app, <- app_assoc. simpl.
    unfold clip_window_tag at 2. simpl. simpl in Hs, He.
    rewrite Hs, He. reflexivity.
  - cbn [filter]. rewrite Hlen. simpl in Hlen |- *.
    apply negb_false_iff in Hlen. rewrite Hlen. apply IH. exact Hrest.
Qed.

(** Whatever is raised, the loop only appends, in the order of the
    ranges, clips on the windows of ranges of positive length that start
    within the source, each with the tag recorded for its range, and at
    most one clip for a range. *)
Lemma included_loop_appends (video_duration : Q) (s : settings) :
  forall ranges included r,
    exists kept added,
      fst (included_loop false video_duration ranges s included r)
      = included ++ added
      /\ map clip_window_tag added = map range_window_tag kept
      /\ (exists choice : list bool,
            List.length choice = List.length ranges
            /\ kept = map fst (filter snd (combine ranges choice)))
      /\ Forall (fun range => has_length range = true
                              /\ fst (fst range) <= video_duration) kept.
Proof.
  induction ranges as [|[[start end_] position] rest IH]; intros included r.
  - exists [], []. simpl. rewrite app_nil_r.
    repeat split; [|constructor]. exists []. auto.
  - destruct (has_length (start, end_, position)) eqn:Hlen.
    + destruct (Qlt_le_dec video_duration start) as [Hlate|Hin].
      * rewrite included_loop_skip by exact Hlate.
        destruct (IH included r)
          as (kept & added & Heq & Hmap & (choice & Hc1 & Hc2) & Hall).
        exists kept, added. repeat split; try assumption.
        exists (false :: choice). simpl. split; [now rewrite Hc1|exact Hc2].
      * rewrite included_loop_step by assumption.
        pose proof (random_effect_window (subclip start end_) (end_ - start)
                      s r) as Hw.
        destruct (fst (random_effect (subclip start end_) (end_ - start) s r))
          as [c|message].
        -- destruct (IH (included ++ [(c, placed_tag position)])
                       (snd (random_effect (subclip start end_)
                               (end_ - start) s r)))
             as (kept & added & Heq & Hmap & (choice & Hc1 & Hc2) & Hall).
           exists ((start, end_, position) :: kept),
                  ((c, placed_tag position) :: added).
           rewrite Heq, <- app_assoc.
           split; [reflexivity|]. split; [|split].
           ++ simpl. rewrite Hmap. unfold clip_window_tag at 1. simpl.
              destruct (Hw c eq_refl) as [Hs He]. simpl in Hs, He.
              rewrite Hs, He. reflexivity.
           ++ exists (true :: choice). simpl.
              split; [now rewrite Hc1|now rewrite Hc2].
           ++ constructor; [split; [exact Hlen|exact Hin]|exact Hall].
        -- destruct (IH included
                       (snd (random_effect (subclip start end_)
                               (end_ - start) s r)))
             as (kept & added & Heq & Hmap & (choice & Hc1 & Hc2) & Hall).
           exists kept, added. repeat split; try assumption.
           exists (false :: choice). simpl.
           split; [now rewrite Hc1|exact Hc2].
    + assert (E : included_loop false video_duration
                    ((start, end_, position) :: rest) s included r
                  = included_loop false video_duration rest s included r).
      { simpl in Hlen |- *. apply negb_false_iff in Hlen. now rewrite Hlen. }
      rewrite E.
      destruct (IH included r)
        as (kept & added & Heq & Hmap & (choice & Hc1 & Hc2) & Hall).
      exists kept, added. repeat split; try assumption.
      exists (false :: choice). simpl. split; [now rewrite Hc1|exact Hc2].
Qed.

Lemma included_end_clips_app (l1 l2 : list (clip * string)) :
  included_end_clips (l1 ++ l2) = included_end_clips l1 ++ included_end_clips l2.
Proof. unfold included_end_clips. now rewrite filter_app, map_app. Qed.

(** The [end]-tagged clips among clips on given windows. *)
Lemma included_end_clips_windows (added : list (clip * string))
    (kept : list (Q * Q * string)) :
  map clip_window_tag added = map range_window_tag kept ->
  map (fun c => (t_start c, t_end c)) (included_end_clips added)
  = map (fun range => fst range)
      (filter (fun range => String.eqb (placed_tag (snd range)) "end") kept).
Proof.
  revert kept. induction added as [|[c tag] added IH];
    intros [|[[start end_] position] kept] Hmap; try discriminate;
    [reflexivity|].
  simpl in Hmap. injection Hmap as Hs He Htag Hrest.
  unfold included_end_clips. simpl. rewrite Htag.
  fold (placed_tag position).
  destruct (String.eqb (placed_tag position) "end"); simpl;
    [rewrite Hs, He; f_equal|]; apply IH; exact Hrest.
Qed.

(** No range tagged [beginning] or [middle] is recorded as [end]. *)
Lemma no_end_tag (kept : list (Q * Q * string)) :
  Forall (fun range => snd range = "beginning"%string
                       \/ snd range = "middle"%string) kept ->
  filter (fun range => String.eqb (placed_tag (snd range)) "end") kept = [].
Proof.
  induction 1 as [|[[a b] p] rest Hp Hrest IH]; [reflexivity|].
  simpl in *. rewrite IH. destruct Hp as [-> | ->]; reflexivity.
Qed.

(** A selection of ranges keeps what holds of all of them. *)
Lemma selection_Forall (P : Q * Q * string -> Prop)
    (ranges : list (Q * Q * string)) :
  Forall P ranges ->
  forall choice : list bool,
    Forall P (map fst (filter snd (combine ranges choice))).
Proof.
  induction 1 as [|range rest Hp Hrest IH]; intros [|b choice]; simpl;
    try constructor.
  destruct b; simpl; [constructor; [exact Hp|]|]; apply IH.
Qed.

(** C5, as the code has it.  The clips of the included ranges are made in
    the order of the ranges, at most one for a range, each on the whole
    window of its range and with the tag recorded for it, a tag outside
    [beginning], [middle], [end] being recorded as [end]; they are made
    of ranges with [end > start] that start within the source only.  With
    settings under which the effect code does not raise (effect weights
    of positive total, a slow-motion speed other than 0) every such range
    gives exactly one clip; a range that starts after the end of the
    source is passed over, like a range with [end <= start].  The clip is
    made by the effect and fade draws that a sampled segment gets; the
    repeat settings and the excluded ranges play no part.  The final
    timeline is the trimmed main sequence followed by the clips recorded
    as [end]: clips of ranges tagged [beginning] or [middle] are made but
    are not in it. *)
Theorem included_ranges_law (video_duration : Q) (s : settings)
    (ranges : list (Q * Q * string)) (r : rng) :
  let included :=
    fst (create_included_segment_clips false video_duration ranges s r) in
  (exists kept,
     map clip_window_tag included = map range_window_tag kept
     /\ (exists choice : list bool,
           List.length choice = List.length ranges
           /\ kept = map fst (filter snd (combine ranges choice)))
     /\ Forall (fun range => has_length range = true
                             /\ fst (fst range) <= video_duration) kept
     /\ map (fun c => (t_start c, t_end c)) (included_end_clips included)
        = map (fun range => fst range)
            (filter (fun range => String.eqb (placed_tag (snd range)) "end")
               kept))
  /\ (0 < effect_slowmo s + effect_freeze s + effect_normal s ->
      ~ slowmo_speed s == 0 ->
      Forall (fun range => fst (fst range) <= video_duration) ranges ->
      map clip_window_tag included
      = map range_window_tag (filter has_length ranges))
  /\ (forall start end_ position r0,
        has_length (start, end_, position) = true ->
        start <= video_duration ->
        create_included_segment_clips false video_duration
          [(start, end_, position)] s r0
        = (match fst (random_effect (subclip start end_) (end_ - start) s r0)
           with
           | Returned c => [(c, placed_tag position)]
           | Raised _ => []
           end,
           snd (random_effect (subclip start end_) (end_ - start) s r0)))
  /\ (forall start end_ position r0,
        video_duration < start \/ end_ <= start ->
        create_included_segment_clips false video_duration
          [(start, end_, position)] s r0
        = ([], r0))
  /\ (forall start duration r0,
        existsb (fun t => is_timestamp_excluded t (excluded_timestamps s))
          (arange start (start + duration) 0.5) = false ->
        start <= video_duration ->
        create_random_effect_clip false video_duration start duration s r0
        = (match fst (random_effect (subclip start (start + duration))
                        duration s r0) with
           | Returned c => Returned (Some c)
           | Raised message => Raised message
           end,
           snd (random_effect (subclip start (start + duration)) duration s r0)))
  /\ (forall s',
        same_effect_settings s s' ->
        create_included_segment_clips false video_duration ranges s' r
        = create_included_segment_clips false video_duration ranges s r)
  /\ (forall main target,
        fit_timeline main included target
        = trim_segments main included target ++ included_end_clips included)
  /\ (Forall (fun range => snd range = "beginning"%string
                           \/ snd range = "middle"%string) ranges ->
      forall main target,
        fit_timeline main included target
        = trim_segments main included target).
Proof.
  intro included.
  destruct (included_loop_appends video_duration s ranges [] r)
    as (kept & added & Heq & Hmap & (choice & Hc1 & Hc2) & Hall).
  simpl in Heq. fold (create_included_segment_clips false video_duration
                        ranges s r) in Heq. fold included in Heq.
  split; [|split; [|split; [|split; [|split; [|split; [|split]]]]]].
  - exists kept. rewrite Heq.
    split; [exact Hmap|]. split; [exists choice; auto|].
    split; [exact Hall|]. apply included_end_clips_windows. exact Hmap.
  - intros Htotal Hspeed Hin. unfold included, create_included_segment_clips.
    rewrite included_loop_windows by assumption. reflexivity.
  - intros start end_ position r0 Hlen Hin.
    unfold create_included_segment_clips.
    rewrite included_loop_step by assumption. simpl.
    destruct (random_effect (subclip start end_) (end_ - start) s r0)
      as [[c|message] r1]; reflexivity.
  - intros start end_ position r0 [Hlate|Hempty];
      unfold create_included_segment_clips.
    + rewrite included_loop_skip by exact Hlate. reflexivity.
    + simpl. assert (E : Qle_bool (end_ - start) 0 = true)
        by (apply Qle_bool_iff; lra).
      rewrite E. reflexivity.
  - intros start duration r0 Hclear Hin.
    apply (create_random_effect_clip_cases video_duration start duration s r0);
      assumption.
  - intros s' Hs. unfold create_included_segment_clips.
    apply included_loop_same_settings. exact Hs.
  - reflexivity.
  - intros Htags main target. unfold fit_timeline.
    assert (Hend : map (fun c => (t_start c, t_end c))
                     (included_end_clips included) = []).
    { rewrite Heq, (included_end_clips_windows added kept Hmap).
      rewrite no_end_tag; [reflexivity|].
      rewrite Hc2. apply selection_Forall. exact Htags. }
    apply map_eq_nil in Hend. rewrite Hend. apply app_nil_r.
Qed.

Lemma included_ranges_law_witness :
  map clip_window_tag
    (fst (create_included_segment_clips false 8000
            (include_timestamps main_defaults) main_defaults
            (constant_rng 0.5)))
  = [(7674, 7773, "end"%string)]
  /\ create_included_segment_clips false 600
       (include_timestamps main_defaults) main_defaults (constant_rng 0.5)
     = ([], constant_rng 0.5).
Proof.
  destruct (included_ranges_law 8000 main_defaults
              (include_timestamps main_defaults) (constant_rng 0.5))
    as (_ & H2 & _).
  destruct (included_ranges_law 600 main_defaults
              (include_timestamps main_defaults) (constant_rng 0.5))
    as (_ & _ & _ & H4 & _).
  split.
  - apply H2; [reflexivity | discriminate |].
    repeat constructor. unfold Qle; simpl; lia.
  - apply H4. left. reflexivity.
Defined.

(** C5 as stated fails: the repeat policy is not applied to included
    ranges.  With a repeat probability of 1 a sampled segment on the
    window [100, 104] comes with two repeats, the included range
    [100, 104] gives a single clip. *)
Lemma included_clips_never_repeat :
  List.length
    (fst (try_segment false 600 100 4 always_repeat [] (constant_rng 0.5)))
  = 3%nat
  /\ List.length
       (fst (create_included_segment_clips false 600
               (include_timestamps always_repeat) always_repeat
               (constant_rng 0.5)))
     = 1%nat.
Proof. split; vm_compute; reflexivity. Qed.

(** ** Malformed ranges *)

(** C9, as the code has it.  Only the timestamp dialogs refuse a
    malformed range, when it is typed in.  The processor does not: its
    validation reads no range, an included range with [end <= start] is
    skipped, an included range with an unknown tag is placed as [end]
    (the clip made of it, on the whole range, is recorded with that tag;
    one is made whenever the range starts within the source and the
    effect code does not raise), and an excluded range with [end < start]
    excludes nothing. *)
Theorem malformed_ranges_law (video_duration : Q) (s : settings) (r : rng) :
  (forall start end_ desc,
     TimestampDialog_ok start end_ desc = None <-> end_ <= start)
  /\ (forall start end_ pos,
        IncludedTimestampDialog_ok start end_ pos = None <->
        end_ <= start \/ known_position pos = false)
  /\ (forall excluded include,
        validate_settings (with_ranges s excluded include)
        = validate_settings s)
  /\ (forall start end_ position,
        end_ <= start ->
        create_included_segment_clips false video_duration
          [(start, end_, position)] s r
        = ([], r))
  /\ (forall start end_ position,
        start < end_ -> known_position position = false ->
        start <= video_duration ->
        0 < effect_slowmo s + effect_freeze s + effect_normal s ->
        ~ slowmo_speed s == 0 ->
        exists c r',
          create_included_segment_clips false video_duration
            [(start, end_, position)] s r
          = ([(c, "end"%string)], r')
          /\ included_end_clips [(c, "end"%string)] = [c]
          /\ t_start c = start /\ t_end c = end_)
  /\ (forall start end_ position c tag,
        known_position position = false ->
        In (c, tag)
           (fst (create_included_segment_clips false video_duration
                   [(start, end_, position)] s r)) ->
        tag = "end"%string /\ t_start c = start /\ t_end c = end_
        /\ start < end_)
  /\ (forall start end_ label time,
        end_ < start ->
        is_timestamp_excluded time [(start, end_, label)] = false).
Proof.
  split; [|split; [|split; [|split; [|split; [|split]]]]].
  - intros start end_ desc. unfold TimestampDialog_ok.
    destruct (Qle_bool end_ start) eqn:E; prop_tests.
    + tauto.
    + split; [discriminate|]. intro H. lra.
  - intros start end_ pos. unfold IncludedTimestampDialog_ok.
    destruct (Qle_bool end_ start) eqn:E; prop_tests; [tauto|].
    destruct (known_position pos); simpl.
    + split; [discriminate|]. intros [H|H]; [lra|discriminate].
    + tauto.
  - reflexivity.
  - intros start end_ position Hle.
    unfold create_included_segment_clips. simpl.
    assert (E : Qle_bool (end_ - start) 0 = true)
      by (apply Qle_bool_iff; lra).
    rewrite E. reflexivity.
  - intros start end_ position Hlt Hbad Hin Htotal Hspeed.
    unfold create_included_segment_clips.
    assert (Hlen : has_length (start, end_, position) = true).
    { simpl. apply negb_true_iff, Qle_bool_false_iff. lra. }
    rewrite included_loop_step by assumption.
    destruct (random_effect_returns (subclip start end_) (end_ - start) s r
                Htotal Hspeed) as [c Hc].
    rewrite Hc. apply random_effect_window in Hc as [Hs He].
    unfold placed_tag. rewrite Hbad. simpl.
    exists c, (snd (random_effect (subclip start end_) (end_ - start) s r)).
    auto.
  - intros start end_ position c tag Hbad.
    unfold create_included_segment_clips.
    destruct (has_length (start, end_, position)) eqn:Hlen.
    + destruct (Qlt_le_dec video_duration start) as [Hlate|Hin].
      * rewrite included_loop_skip by exact Hlate. simpl. tauto.
      * rewrite included_loop_step by assumption.
        pose proof (random_effect_window (subclip start end_) (end_ - start)
                      s r) as Hw.
        destruct (fst (random_effect (subclip start end_) (end_ - start) s r))
          as [c'|message]; simpl; [|tauto].
        intros [Heq|[]]. injection Heq as <- <-.
        destruct (Hw c' eq_refl) as [Hs He].
        unfold placed_tag. rewrite Hbad.
        simpl in Hlen. apply negb_true_iff, Qle_bool_false_iff in Hlen.
        repeat split; auto. lra.
    + simpl in Hlen |- *. apply negb_false_iff in Hlen. rewrite Hlen.
      simpl. tauto.
  - intros start end_ label time Hlt. simpl.
    rewrite orb_false_r. apply andb_false_iff.
    destruct (Qle_bool start time) eqn:E1; [right|now left].
    prop_tests. apply Qle_bool_false_iff. lra.
Qed.

(** C9 as stated fails: settings with a reversed excluded range, a
    reversed included range and an included range tagged [bogus] are
    accepted and the run completes; the reversed included range leaves no
    clip and the [bogus] one closes the timeline as an [end] clip. *)
Lemma malformed_ranges_accepted :
  validate_settings malformed_ranges = None
  /\ exists trace timeline rendered r' c,
       process_video 30 false 600 60 malformed_ranges (constant_rng 0.5)
       = (Some (trace, Completed timeline rendered), r')
       /\ List.length
            (fst (create_included_segment_clips false 600
                    (include_timestamps malformed_ranges) malformed_ranges
                    (constant_rng 0.5))) = 1%nat
       /\ last timeline (subclip 0 0) = c
       /\ t_start c = 100 /\ t_end c = 104.
Proof.
  split; [reflexivity|].
  do 5 eexists.
  split; [vm_compute; reflexivity|].
  repeat split; vm_compute; reflexivity.
Qed.

(** ** Sampled segments and the bounds of the source *)

(** Every clip of a zone lies inside the zone. *)
Lemma sampled_clips_within_zone (fuel : nat) (cancelled : bool)
    (video_duration section_start section_end : Q) (num_segments : Z)
    (s : settings) (r : rng) (clips : list clip) (r' : rng) :
  unit_tape r ->
  create_section_clips fuel cancelled video_duration section_start section_end
    num_segments s r
  = (Some clips, r') ->
  Forall (fun c => section_start <= t_start c /\ t_end c <= section_end) clips
  /\ unit_tape r'.
Proof.
  intros Hr Hrun.
  eapply create_section_clips_invariant; [|exact Hr|exact Hrun].
  intros cur d r0 c Hcur Hd Hfit Hmade.
  apply create_random_effect_clip_window in Hmade as [-> ->]. split; lra.
Qed.

(** The End-main zone starts inside the source once the source lasts at
    least 300 s. *)
Lemma main_start_nonneg (duration : Q) :
  300 <= duration -> 0 <= fst (fst (get_end_segment duration)).
Proof.
  intro H. unfold get_end_segment. simpl.
  destruct (Qle_bool (duration / 60) 90) eqn:E1; [lra|].
  apply Qle_bool_false_iff in E1.
  assert (H1 : 5400 < duration).
  { assert (E : duration == duration / 60 * 60) by field. rewrite E. lra. }
  destruct (Qle_bool (duration / 60) 120) eqn:E2; [lra|].
  apply Qle_bool_false_iff in E2.
  assert (H2 : 7200 < duration).
  { assert (E : duration == duration / 60 * 60) by field. rewrite E. lra. }
  lra.
Qed.

(** On a source of at least 300 s every clip of the main sequence, the
    tail clip included, lies inside the source. *)
Lemma main_sequence_within_source (fuel : nat) (cancelled : bool)
    (video_duration target_duration : Q) (s : settings) (r : rng)
    (main : list clip) (included : list (clip * string)) (r' : rng) :
  unit_tape r ->
  300 <= video_duration ->
  assemble fuel cancelled video_duration target_duration s r
  = (Some (main, included), r') ->
  Forall (fun c => 0 <= t_start c /\ t_end c <= video_duration) main.
Proof.
  intros Hr Hlong. unfold assemble.
  pose proof (main_start_nonneg video_duration Hlong) as Hmain.
  destruct (get_end_segment video_duration) as [[main_start final_start] final_end]
    eqn:Ezone.
  assert (Hfs : final_start = video_duration - 10)
    by (unfold get_end_segment in Ezone; congruence).
  assert (Hfe : final_end = video_duration - 0.5)
    by (unfold get_end_segment in Ezone; congruence).
  simpl in Hmain. subst final_start final_end.
  unfold bind_opt, bind.
  destruct (create_section_clips fuel cancelled video_duration 0 _ _ s r)
    as [[beginning_clips|] r1] eqn:E1; [|discriminate].
  apply sampled_clips_within_zone in E1 as [Hb Hr1]; [|exact Hr].
  destruct (create_section_clips fuel cancelled video_duration _ _ _ s r1)
    as [[middle_clips|] r2] eqn:E2; [|discriminate].
  apply sampled_clips_within_zone in E2 as [Hm Hr2]; [|exact Hr1].
  destruct (create_section_clips fuel cancelled video_duration _ _ _ s r2)
    as [[end_clips|] r3] eqn:E3; [|discriminate].
  apply sampled_clips_within_zone in E3 as [He Hr3]; [|exact Hr2].
  destruct (create_included_segment_clips cancelled video_duration
              (include_timestamps s) s r3)
    as [included_clips r4].
  unfold ret. intros [= <- <- <-].
  repeat (apply Forall_app; split).
  - eapply Forall_impl; [|exact Hb]. simpl. intros c [H1 H2]. split; lra.
  - eapply Forall_impl; [|exact Hm]. simpl. intros c [H1 H2]. split; lra.
  - eapply Forall_impl; [|exact He]. simpl. intros c [H1 H2]. split; lra.
  - constructor; [|constructor]. simpl. split; lra.
Qed.

(** C4 at a source of 100 s: the End-main zone starts at -200 s, and the
    sampler takes its first End-main segment there; the segment is the
    fourteenth clip of the completed timeline. *)
Theorem short_source_negative_start :
  get_end_segment 100 = (100 - 300, 100 - 10, 100 - 0.5)
  /\ exists trace timeline rendered r' c,
       process_video 30 false 100 60 defaults (constant_rng 0.5)
       = (Some (trace, Completed timeline rendered), r')
       /\ nth_error timeline 13 = Some c
       /\ t_start c == -200
       /\ t_start c < 0.
Proof.
  split; [reflexivity|].
  do 5 eexists.
  split; [vm_compute; reflexivity|].
  split; [vm_compute; reflexivity|].
  split; vm_compute; reflexivity.
Qed.

(** ** More on the zone sampler *)

Lemma create_random_effect_clip_made (cancelled : bool)
    (video_duration current_time segment_duration : Q) (s : settings)
    (r : rng) (c : clip) :
  fst (create_random_effect_clip cancelled video_duration current_time
         segment_duration s r)
  = Returned (Some c) ->
  made_at s current_time segment_duration c.
Proof.
  intro Hmade.
  pose proof (create_random_effect_clip_window _ _ _ _ _ _ _ Hmade) as [Hs He].
  split; [exact Hs|]. split; [exact He|].
  apply create_random_effect_clip_returned in Hmade as (_ & E & _ & _).
  intros k Hk. rewrite Hs, He in *.
  destruct (is_timestamp_excluded _ _) eqn:Ex; [|reflexivity].
  pose proof (excluded_probe_found current_time segment_duration s k Hk Ex).
  congruence.
Qed.

Lemma repeat_loop_appends (n : nat) (cancelled : bool)
    (video_duration current_time segment_duration : Q) (s : settings) :
  forall clips r,
    exists added,
      fst (repeat_loop n cancelled video_duration current_time
             segment_duration s clips r)
      = clips ++ added
      /\ Forall (made_at s current_time segment_duration) added
      /\ (List.length added <= n)%nat.
Proof.
  induction n as [|n IH]; intros clips r; simpl.
  - exists []. rewrite app_nil_r. repeat split; auto.
  - destruct cancelled eqn:Ec.
    { exists []. rewrite app_nil_r. repeat split; auto. simpl. lia. }
    unfold bind.
    pose proof (create_random_effect_clip_made false video_duration
                  current_time segment_duration s r) as Hmade.
    destruct (create_random_effect_clip false video_duration current_time
                segment_duration s r)
      as [[[c|]|message] r1]; simpl in Hmade.
    + destruct (IH (clips ++ [c]) r1) as (added & Heq & Hall & Hlen).
      exists (c :: added). rewrite Heq, <- app_assoc. simpl.
      repeat split; [constructor; auto | lia].
    + destruct (IH clips r1) as (added & Heq & Hall & Hlen).
      exists added. repeat split; auto.
    + exists []. rewrite app_nil_r. repeat split; auto. simpl. lia.
Qed.

Lemma try_segment_appends (cancelled : bool)
    (video_duration current_time segment_duration : Q) (s : settings)
    (clips : list clip) (r : rng) :
  exists added,
    fst (try_segment cancelled video_duration current_time segment_duration
           s clips r)
    = clips ++ added
    /\ Forall (made_at s current_time segment_duration) added.
Proof.
  unfold try_segment, bind.
  pose proof (create_random_effect_clip_made cancelled video_duration
                current_time segment_duration s r) as Hmade.
  destruct (create_random_effect_clip cancelled video_duration current_time
              segment_duration s r) as [[[c|]|message] r1]; simpl in Hmade.
  - assert (Hone : exists added,
               clips ++ [c] = clips ++ added
               /\ Forall (made_at s current_time segment_duration) added)
      by (exists [c]; split; [reflexivity|constructor; auto]).
    destruct (random r1) as [u r2].
    destruct (Qlt_bool u (repeat_probability s)); [|exact Hone].
    destruct (randint 1 (max_repeats s) r2) as [[k|] r3]; [|exact Hone].
    destruct (repeat_loop_appends (Z.to_nat k) cancelled video_duration
                current_time segment_duration s (clips ++ [c]) r3)
      as (added & Heq & Hall & _).
    exists (c :: added). rewrite Heq, <- app_assoc. simpl.
    split; [reflexivity|constructor; auto].
  - exists []. rewrite app_nil_r. split; [reflexivity|constructor].
  - exists []. rewrite app_nil_r. split; [reflexivity|constructor].
Qed.

Lemma starts_sorted_app (l1 l2 : list clip) :
  starts_sorted l1 -> starts_sorted l2 ->
  (forall a b, In a l1 -> In b l2 -> t_start a <= t_start b) ->
  starts_sorted (l1 ++ l2).
Proof.
  unfold starts_sorted. intros H1 H2 Hcross.
  induction H1 as [|a l1 Hl1 IH Ha]; simpl; [exact H2|].
  constructor.
  - apply IH. intros x y Hx Hy. apply Hcross; [now right|exact Hy].
  - apply Forall_app. split; [exact Ha|].
    apply Forall_forall. intros b Hb. apply Hcross; [now left|exact Hb].
Qed.

Lemma same_start_sorted (current_time : Q) (l : list clip) :
  Forall (fun c => t_start c = current_time) l -> starts_sorted l.
Proof.
  unfold starts_sorted. induction 1 as [|a l Ha Hl IH]; constructor; auto.
  eapply Forall_impl; [|exact Hl]. simpl. intros b Hb. rewrite Ha, Hb. lra.
Qed.

Lemma sampled_from_earlier (s : settings) (from from' section_end : Q)
    (c : clip) :
  from <= from' -> sampled_from s from' section_end c ->
  sampled_from s from section_end c.
Proof.
  intros Hle (H1 & H2 & H3 & H4 & H5). repeat split; auto; lra.
Qed.

(** The loop only appends; what it appends was sampled at or after
    [current_time], inside the zone, and is in sampling order. *)
Lemma section_loop_appends (cancelled : bool) (video_duration : Q)
    (s : settings) (section_end step : Q) (fuel : nat) :
  0 <= step ->
  forall current_time clips r clips' r',
    unit_tape r ->
    section_loop fuel cancelled video_duration s section_end step
      current_time clips r
    = (Some clips', r') ->
    exists added,
      clips' = clips ++ added
      /\ Forall (sampled_from s current_time section_end) added
      /\ starts_sorted added.
Proof.
  intro Hstep.
  assert (Hnil : forall cur clips,
            exists added,
              clips = clips ++ added
              /\ Forall (sampled_from s cur section_end) added
              /\ starts_sorted added).
  { intros cur clips. exists []. rewrite app_nil_r.
    repeat split; constructor. }
  induction fuel as [|fuel IH]; intros cur clips r clips' r' Hr; simpl;
    [discriminate|].
  destruct (Qlt_bool cur section_end && negb cancelled);
    [|intros [= <- <-]; apply Hnil].
  destruct (Qlt_bool (section_end - cur) 2) eqn:Erem;
    [intros [= <- <-]; apply Hnil|].
  prop_tests. unfold bind.
  assert (Hmin : 2 <= py_min 4 (section_end - cur))
    by (apply py_min_glb; lra).
  pose proof (uniform_bounds 2 _ r Hr Hmin) as [Hlo Hhi].
  pose proof (unit_tape_after _ r
                (keeps_tape_uniform 2 (py_min 4 (section_end - cur))) Hr)
    as Hr1.
  pose proof (py_min_le_l 4 (section_end - cur)) as Hfour.
  pose proof (py_min_le_r 4 (section_end - cur)) as Hfit.
  destruct (uniform 2 (py_min 4 (section_end - cur)) r) as [d r1].
  simpl in Hlo, Hhi, Hr1.
  destruct (try_segment_appends cancelled video_duration cur d s clips r1)
    as (added1 & Heq1 & Hall1).
  pose proof (unit_tape_after _ r1
                (keeps_tape_try_segment cancelled video_duration cur d s clips)
                Hr1) as Hr2.
  destruct (try_segment cancelled video_duration cur d s clips r1)
    as [clips1 r2].
  simpl in Heq1, Hr2. subst clips1.
  assert (Hb : 0.8 <= 1.2) by lra.
  pose proof (uniform_bounds 0.8 1.2 r2 Hr2 Hb) as [Hu _].
  pose proof (unit_tape_after _ r2 (keeps_tape_uniform 0.8 1.2) Hr2) as Hr3.
  destruct (uniform 0.8 1.2 r2) as [u r3]. simpl in Hu, Hr3.
  intro Hrun. apply IH in Hrun as (added2 & Heq2 & Hall2 & Hsorted2);
    [|exact Hr3].
  assert (Hadv : cur <= cur + step * u).
  { assert (0 <= step * u) by (apply Qmult_le_0_compat; lra). lra. }
  exists (added1 ++ added2). split; [now rewrite app_assoc|].
  assert (Hfrom1 : Forall (sampled_from s cur section_end) added1).
  { eapply Forall_impl; [|exact Hall1].
    intros c (Hs & He & Hp). unfold sampled_from, source_span.
    rewrite Hs, He. repeat split; try lra. exact Hp. }
  split.
  - apply Forall_app. split; [exact Hfrom1|].
    eapply Forall_impl; [|exact Hall2].
    intros c Hc. eapply sampled_from_earlier; eassumption.
  - apply starts_sorted_app; [|exact Hsorted2|].
    + apply same_start_sorted with (current_time := cur).
      eapply Forall_impl; [|exact Hall1]. intros c Hc. apply Hc.
    + intros a b Hina Hinb.
      rewrite Forall_forall in Hall1, Hall2.
      destruct (Hall1 a Hina) as [Hsa _].
      destruct (Hall2 b Hinb) as [Hsb _]. rewrite Hsa. lra.
Qed.

(** The same, candidate by candidate: what the loop appends is made of
    the groups of the candidates it accepted, taken at times that
    increase. *)
Lemma section_loop_groups (cancelled : bool) (video_duration : Q)
    (s : settings) (section_end step : Q) (fuel : nat) :
  0 < step ->
  forall current_time clips r clips' r',
    unit_tape r ->
    section_loop fuel cancelled video_duration s section_end step
      current_time clips r
    = (Some clips', r') ->
    exists groups : list (Q * list clip),
      clips' = clips ++ List.concat (map snd groups)
      /\ Forall candidate_group groups
      /\ Forall (fun g => current_time <= fst g) groups
      /\ StronglySorted (fun g h => fst g < fst h) groups.
Proof.
  intro Hstep.
  assert (Hnil : forall cur clips,
            exists groups : list (Q * list clip),
              clips = clips ++ List.concat (map snd groups)
              /\ Forall candidate_group groups
              /\ Forall (fun g => cur <= fst g) groups
              /\ StronglySorted (fun g h => fst g < fst h) groups).
  { intros cur clips. exists []. simpl. rewrite app_nil_r.
    repeat split; constructor. }
  induction fuel as [|fuel IH]; intros cur clips r clips' r' Hr; simpl;
    [discriminate|].
  destruct (Qlt_bool cur section_end && negb cancelled);
    [|intros [= <- <-]; apply Hnil].
  destruct (Qlt_bool (section_end - cur) 2) eqn:Erem;
    [intros [= <- <-]; apply Hnil|].
  prop_tests. unfold bind.
  pose proof (unit_tape_after _ r
                (keeps_tape_uniform 2 (py_min 4 (section_end - cur))) Hr)
    as Hr1.
  destruct (uniform 2 (py_min 4 (section_end - cur)) r) as [d r1].
  simpl in Hr1.
  destruct (try_segment_appends cancelled video_duration cur d s clips r1)
    as (added1 & Heq1 & Hall1).
  pose proof (unit_tape_after _ r1
                (keeps_tape_try_segment cancelled video_duration cur d s clips)
                Hr1) as Hr2.
  destruct (try_segment cancelled video_duration cur d s clips r1)
    as [clips1 r2].
  simpl in Heq1, Hr2. subst clips1.
  assert (Hb : 0.8 <= 1.2) by lra.
  pose proof (uniform_bounds 0.8 1.2 r2 Hr2 Hb) as [Hu _].
  pose proof (unit_tape_after _ r2 (keeps_tape_uniform 0.8 1.2) Hr2) as Hr3.
  destruct (uniform 0.8 1.2 r2) as [u r3]. simpl in Hu, Hr3.
  intro Hrun.
  apply IH in Hrun as (groups & Heq2 & Hgroups & Hfrom & Hsorted);
    [|exact Hr3].
  assert (Hadv : cur < cur + step * u).
  { assert (0 < step * u) by (apply Qmult_lt_0_compat; lra). lra. }
  assert (Hlater : Forall (fun g => cur < fst g) groups).
  { eapply Forall_impl; [|exact Hfrom]. simpl. intros g Hg. lra. }
  destruct added1 as [|c added1].
  - exists groups. rewrite app_nil_r in Heq2.
    split; [exact Heq2|]. split; [exact Hgroups|]. split; [|exact Hsorted].
    eapply Forall_impl; [|exact Hlater]. simpl. intros g Hg. lra.
  - exists ((cur, c :: added1) :: groups). simpl.
    split; [rewrite Heq2, <- app_assoc; reflexivity|].
    split; [|split].
    + constructor; [|exact Hgroups]. split; [discriminate|]. simpl.
      eapply Forall_impl; [|exact Hall1]. intros x Hx. apply Hx.
    + constructor; [simpl; lra|].
      eapply Forall_impl; [|exact Hlater]. simpl. intros g Hg. lra.
    + constructor; [exact Hsorted|exact Hlater].
Qed.

(** The same for a whole zone. *)
Lemma create_section_clips_trace (fuel : nat) (cancelled : bool)
    (video_duration section_start section_end : Q) (num_segments : Z)
    (s : settings) (r : rng) (clips : list clip) (r' : rng) :
  unit_tape r ->
  create_section_clips fuel cancelled video_duration section_start section_end
    num_segments s r
  = (Some clips, r') ->
  Forall (sampled_from s section_start section_end) clips
  /\ starts_sorted clips.
Proof.
  intros Hr Hrun. unfold create_section_clips in Hrun.
  destruct (Qlt_le_dec section_start section_end) as [Hlt|Hge].
  - apply section_loop_appends in Hrun as (added & -> & Hall & Hsorted);
      [auto | | exact Hr].
    pose proof (actual_segments_pos (section_end - section_start) num_segments).
    apply Qle_shift_div_l; [|lra].
    change 0 with (inject_Z 0). rewrite <- Zlt_Qlt. lia.
  - destruct fuel as [|fuel]; [discriminate|]. simpl in Hrun.
    assert (E : Qlt_bool section_start section_end = false)
      by (apply Qlt_bool_false_iff; assumption).
    rewrite E in Hrun. simpl in Hrun. injection Hrun as <- <-.
    split; constructor.
Qed.

(** X1. Every clip that [create_section_clips] returns was cut inside its
    zone, and reads between 2 and 4 seconds of the source. *)
Theorem zone_clips_inside_zone (fuel : nat) (cancelled : bool)
    (video_duration section_start section_end : Q) (num_segments : Z)
    (s : settings) (r : rng) (clips : list clip) (r' : rng) :
  unit_tape r ->
  create_section_clips fuel cancelled video_duration section_start section_end
    num_segments s r
  = (Some clips, r') ->
  Forall (fun c => section_start <= t_start c
                   /\ t_end c <= section_end
                   /\ 2 <= t_end c - t_start c
                   /\ t_end c - t_start c <= 4) clips.
Proof.
  intros Hr Hrun.
  apply create_section_clips_trace in Hrun as [Hall _]; [|exact Hr].
  eapply Forall_impl; [|exact Hall].
  intros c (H1 & H2 & H3 & H4 & _). unfold source_span in *. auto.
Qed.

Lemma zone_clips_inside_zone_witness :
  exists clips r',
    create_section_clips 17 false 600 0 198 8 main_defaults (constant_rng 0.5)
    = (Some clips, r')
    /\ Forall (fun c => 0 <= t_start c
                        /\ t_end c <= 198
                        /\ 2 <= t_end c - t_start c
                        /\ t_end c - t_start c <= 4) clips.
Proof.
  assert (H : exists clips r',
             create_section_clips 17 false 600 0 198 8 main_defaults
               (constant_rng 0.5) = (Some clips, r'))
    by (do 2 eexists; vm_compute; reflexivity).
  destruct H as (clips & r' & E).
  exists clips, r'. split; [exact E|].
  apply (zone_clips_inside_zone 17 false 600 0 198 8 main_defaults
           (constant_rng 0.5) clips r' constant_rng_unit E).
Defined.

(** X2. The clips of a zone come in sampling order.  Their start times
    never decrease; more precisely the clips are those of the accepted
    candidates, candidate after candidate at times that increase, and
    the clips of one candidate, the original and its repeats, all start
    where the candidate starts. *)
Theorem zone_clips_in_start_order (fuel : nat) (cancelled : bool)
    (video_duration section_start section_end : Q) (num_segments : Z)
    (s : settings) (r : rng) (clips : list clip) (r' : rng) :
  unit_tape r ->
  create_section_clips fuel cancelled video_duration section_start section_end
    num_segments s r
  = (Some clips, r') ->
  StronglySorted (fun a b => t_start a <= t_start b) clips
  /\ (exists groups : list (Q * list clip),
        clips = List.concat (map snd groups)
        /\ Forall (fun g => snd g <> []
                            /\ Forall (fun c => t_start c = fst g) (snd g))
             groups
        /\ StronglySorted (fun g h => fst g < fst h) groups)
  /\ (forall current_time segment_duration before r0,
        exists added,
          fst (try_segment cancelled video_duration current_time
                 segment_duration s before r0)
          = before ++ added
          /\ Forall (fun c => t_start c = current_time) added).
Proof.
  intros Hr Hrun. split; [|split].
  - apply create_section_clips_trace in Hrun as [_ Hsorted]; [|exact Hr].
    exact Hsorted.
  - unfold create_section_clips in Hrun.
    destruct (Qlt_le_dec section_start section_end) as [Hlt|Hge].
    + apply section_loop_groups in Hrun
        as (groups & Heq & Hgroups & _ & Hsorted); [| |exact Hr].
      * exists groups. auto.
      * pose proof (actual_segments_pos (section_end - section_start)
                      num_segments).
        apply Qlt_shift_div_l; [|lra].
        change 0 with (inject_Z 0). rewrite <- Zlt_Qlt. lia.
    + destruct fuel as [|fuel]; [discriminate|]. simpl in Hrun.
      assert (E : Qlt_bool section_start section_end = false)
        by (apply Qlt_bool_false_iff; assumption).
      rewrite E in Hrun. simpl in Hrun. injection Hrun as <- <-.
      exists []. repeat split; constructor.
  - intros current_time segment_duration before r0.
    destruct (try_segment_appends cancelled video_duration current_time
                segment_duration s before r0) as (added & Heq & Hall).
    exists added. split; [exact Heq|].
    eapply Forall_impl; [|exact Hall]. intros c Hc. apply Hc.
Qed.

Lemma zone_clips_in_start_order_witness :
  exists clips r' groups,
    create_section_clips 17 false 600 0 198 8 always_repeat (constant_rng 0.5)
    = (Some clips, r')
    /\ StronglySorted (fun a b => t_start a <= t_start b) clips
    /\ clips = List.concat (map snd groups)
    /\ Forall (fun g => snd g <> []
                        /\ Forall (fun c => t_start c = fst g) (snd g))
         groups
    /\ StronglySorted (fun g h => fst g < fst h) groups.
Proof.
  assert (H : exists clips r',
             create_section_clips 17 false 600 0 198 8 always_repeat
               (constant_rng 0.5) = (Some clips, r'))
    by (do 2 eexists; vm_compute; reflexivity).
  destruct H as (clips & r' & E).
  destruct (zone_clips_in_start_order 17 false 600 0 198 8 always_repeat
              (constant_rng 0.5) clips r' constant_rng_unit E)
    as (Hsorted & (groups & H1 & H2 & H3) & _).
  exists clips, r', groups. auto.
Defined.

(** X3. A sampled clip never starts inside an excluded range, and what
    it shares with an excluded range is always shorter than half a
    second, the spacing of the probes. *)
Theorem zone_clips_miss_excluded_ranges (fuel : nat) (cancelled : bool)
    (video_duration section_start section_end : Q) (num_segments : Z)
    (s : settings) (r : rng) (clips : list clip) (r' : rng) :
  unit_tape r ->
  create_section_clips fuel cancelled video_duration section_start section_end
    num_segments s r
  = (Some clips, r') ->
  forall c lo hi label,
    In c clips ->
    In (lo, hi, label) (excluded_timestamps s) ->
    ~ (lo <= t_start c /\ t_start c <= hi)
    /\ (forall x y,
          t_start c <= x -> lo <= x -> y <= t_end c -> y <= hi ->
          y - x < 0.5).
Proof.
  intros Hr Hrun c lo hi label Hc Hrange.
  apply create_section_clips_trace in Hrun as [Hall _]; [|exact Hr].
  rewrite Forall_forall in Hall.
  destruct (Hall c Hc) as (_ & _ & Hspan & _ & Hclear).
  unfold source_span in Hspan.
  assert (Hhit : forall k : nat,
            t_start c + inject_Z (Z.of_nat k) * 0.5 < t_end c ->
            lo <= t_start c + inject_Z (Z.of_nat k) * 0.5 ->
            t_start c + inject_Z (Z.of_nat k) * 0.5 <= hi ->
            False).
  { intros k Hk Hlo Hhi. specialize (Hclear k Hk).
    assert (Hex : is_timestamp_excluded
                    (t_start c + inject_Z (Z.of_nat k) * 0.5)
                    (excluded_timestamps s) = true)
      by (apply is_timestamp_excluded_iff; exists lo, hi, label; auto).
    congruence. }
  split.
  - intros [Hlo Hhi]. apply (Hhit 0%nat);
      change (inject_Z (Z.of_nat 0)) with 0; lra.
  - intros x y Hx Hlo Hy Hhi.
    destruct (Qlt_le_dec (y - x) 0.5) as [Hshort|Hlong]; [exact Hshort|].
    exfalso.
    set (q := (x - t_start c) * 2).
    assert (Hq : 0 <= q) by (unfold q; lra).
    pose proof (Qle_ceiling q) as Hceil.
    pose proof (Qceiling_lt q) as Hbelow.
    assert (Hk : (0 <= Qceiling q)%Z).
    { rewrite Zle_Qle. change (inject_Z 0) with 0. lra. }
    replace (Qceiling q - 1)%Z with (Qceiling q + -1)%Z in Hbelow by lia.
    rewrite inject_Z_plus in Hbelow. change (inject_Z (-1)) with (-1) in Hbelow.
    apply (Hhit (Z.to_nat (Qceiling q))); rewrite Z2Nat.id by exact Hk;
      unfold q in *; lra.
Qed.

Lemma zone_clips_miss_excluded_ranges_witness :
  exists clips r' c,
    create_section_clips 17 false 600 0 198 8 main_defaults (constant_rng 0.5)
    = (Some clips, r')
    /\ nth_error clips 3 = Some c
    /\ ~ (176 <= t_start c /\ t_start c <= 206)
    /\ (forall x y,
          t_start c <= x -> 176 <= x -> y <= t_end c -> y <= 206 ->
          y - x < 0.5).
Proof.
  assert (H : exists clips r' c,
             create_section_clips 17 false 600 0 198 8 main_defaults
               (constant_rng 0.5) = (Some clips, r')
             /\ nth_error clips 3 = Some c)
    by (do 3 eexists; split; vm_compute; reflexivity).
  destruct H as (clips & r' & c & E & Hnth).
  exists clips, r', c. split; [exact E|]. split; [exact Hnth|].
  apply (zone_clips_miss_excluded_ranges 17 false 600 0 198 8 main_defaults
           (constant_rng 0.5) clips r' constant_rng_unit E c 176 206
           "Scene transition"%string).
  - eapply nth_error_In. exact Hnth.
  - simpl. right. left. reflexivity.
Defined.

(** ** More on a whole run *)

(** X5. The trimming removes no more than it must: when it has removed
    anything, putting back the clip it removed last would leave the main
    sequence and the included clips longer than the target. *)
Theorem trimming_is_minimal (all_segments : list clip)
    (included_clips : list (clip * string)) (target_duration : Q) :
  trim_segments all_segments included_clips target_duration <> all_segments ->
  exists c dropped,
    all_segments
    = trim_segments all_segments included_clips target_duration
      ++ c :: dropped
    /\ target_duration
       < sum_durations
           (trim_segments all_segments included_clips target_duration ++ [c])
         + sum_durations (map fst included_clips).
Proof.
  unfold trim_segments.
  destruct (Qlt_bool target_duration _) eqn:E; [|intro H; now contradiction H].
  destruct (trim_loop_spec (List.length all_segments) all_segments
              (trim_excess all_segments included_clips target_duration)
              (le_n _))
    as (kept & dropped & Hsplit & Hsnd & _ & Hwhile & _).
  rewrite Hsnd. intro Hchanged.
  destruct dropped as [|c rest].
  - rewrite app_nil_r in Hsplit. congruence.
  - exists c, rest. split; [exact Hsplit|].
    specialize (Hwhile [] c rest eq_refl).
    unfold trim_excess in Hwhile. rewrite Hsplit in Hwhile.
    rewrite sum_durations_app, sum_durations_cons in Hwhile.
    rewrite sum_durations_last. lra.
Qed.

Lemma trimming_is_minimal_witness :
  exists main included r' c dropped,
    assemble 9 false 600 12 with_beginning_range (constant_rng 0.5)
    = (Some (main, included), r')
    /\ main = trim_segments main included 12 ++ c :: dropped
    /\ 12 < sum_durations (trim_segments main included 12 ++ [c])
            + sum_durations (map fst included).
Proof.
  assert (H : exists main included r',
             assemble 9 false 600 12 with_beginning_range (constant_rng 0.5)
             = (Some (main, included), r')
             /\ List.length (trim_segments main included 12)
                <> List.length main)
    by (do 3 eexists; split; [vm_compute; reflexivity|vm_compute; lia]).
  destruct H as (main & included & r' & E & Hlen).
  destruct (trimming_is_minimal main included 12) as (c & dropped & H1 & H2).
  - intro Heq. apply Hlen. now rewrite Heq.
  - exists main, included, r', c, dropped. auto.
Defined.

(** X6. The clip of the tail window, [[duration - 10, duration - 0.5]],
    closes the main sequence, and it is the first to go: whenever the
    trimming removes anything, what it keeps is taken from the clips
    before the tail clip. *)
Theorem tail_clip_goes_first (fuel : nat) (cancelled : bool)
    (video_duration target_duration : Q) (s : settings) (r : rng)
    (main : list clip) (included : list (clip * string)) (r' : rng) :
  assemble fuel cancelled video_duration target_duration s r
  = (Some (main, included), r') ->
  exists body,
    main = body ++ [subclip (video_duration - 10) (video_duration - 0.5)]
    /\ (trim_segments main included target_duration <> main ->
        exists dropped,
          body = trim_segments main included target_duration ++ dropped).
Proof.
  unfold assemble, get_end_segment, bind_opt, bind.
  destruct (create_section_clips fuel cancelled video_duration 0 _ _ s r)
    as [[beginning_clips|] r1]; [|discriminate].
  destruct (create_section_clips fuel cancelled video_duration _ _ _ s r1)
    as [[middle_clips|] r2]; [|discriminate].
  destruct (create_section_clips fuel cancelled video_duration _ _ _ s r2)
    as [[end_clips|] r3]; [|discriminate].
  destruct (create_included_segment_clips cancelled video_duration
              (include_timestamps s) s r3)
    as [included_clips r4].
  unfold ret. intros [= <- <- <-].
  exists (beginning_clips ++ middle_clips ++ end_clips).
  remember (beginning_clips ++ middle_clips ++ end_clips
            ++ [subclip (video_duration - 10) (video_duration - 0.5)])
    as main eqn:Hmain.
  assert (Hm : main = (beginning_clips ++ middle_clips ++ end_clips)
                      ++ [subclip (video_duration - 10) (video_duration - 0.5)])
    by (subst main; now rewrite <- !app_assoc).
  split; [exact Hm|].
  intro Hchanged.
  destruct (trimming_prefix main included_clips target_duration)
    as [dropped Hsplit].
  destruct (list_end dropped) as [->|(dropped' & x & ->)].
  - rewrite app_nil_r in Hsplit. symmetry in Hsplit. contradiction.
  - exists dropped'.
    assert (H : (beginning_clips ++ middle_clips ++ end_clips)
                ++ [subclip (video_duration - 10) (video_duration - 0.5)]
                = (trim_segments main included_clips target_duration
                   ++ dropped') ++ [x])
      by (rewrite <- Hm, <- app_assoc; exact Hsplit).
    apply app_inj_tail in H as [Hbody _]. exact Hbody.
Qed.

Lemma tail_clip_goes_first_witness :
  exists main included r' body,
    assemble 30 false 600 60 defaults (constant_rng 0.5)
    = (Some (main, included), r')
    /\ main = body ++ [subclip (600 - 10) (600 - 0.5)].
Proof.
  assert (H : exists main included r',
             assemble 30 false 600 60 defaults (constant_rng 0.5)
             = (Some (main, included), r'))
    by (do 3 eexists; vm_compute; reflexivity).
  destruct H as (main & included & r' & E).
  destruct (tail_clip_goes_first 30 false 600 60 defaults (constant_rng 0.5)
              main included r' E) as (body & Hbody & _).
  exists main, included, r', body. auto.
Defined.

(** ** Probabilities 0 and 1 *)

Lemma unit_draws_same (r r' : rng) :
  tape r' = tape r -> unit_draws r -> unit_draws r'.
Proof. unfold unit_draws. intros -> H. exact H. Qed.

(** X7. With weights that are not negative and not all zero, an effect
    of weight 0 is never chosen; a clip is never faded when the fade
    probability is 0 and always when it is 1; only a freeze frame is
    ever zoomed, and none is when the zoom probability is 0.  The effect
    code then makes a clip unless it plays a slow motion at speed 0: it
    always does when the weight of slow motion is 0 or the speed is not
    0. *)
Theorem impossible_effects_never_drawn (start end_ duration : Q)
    (s : settings) (r : rng) :
  unit_draws r ->
  0 <= effect_slowmo s -> 0 <= effect_freeze s -> 0 <= effect_normal s ->
  0 < effect_slowmo s + effect_freeze s + effect_normal s ->
  let made := fst (random_effect (subclip start end_) duration s r) in
  (effect_slowmo s == 0 \/ ~ slowmo_speed s == 0 ->
   exists c, made = Returned c)
  /\ (forall c,
        made = Returned c ->
        (effect_slowmo s == 0 -> effect_type c <> Slowmo)
        /\ (effect_freeze s == 0 -> effect_type c <> Freeze)
        /\ (effect_normal s == 0 -> effect_type c <> Normal)
        /\ (fade_probability s <= 0 -> faded c = false)
        /\ (1 <= fade_probability s -> faded c = true)
        /\ (zoom_probability s <= 0 -> zoomed c = false)
        /\ (effect_type c <> Freeze -> zoomed c = false)).
Proof.
  intros Hr H1 H2 H3 Htotal made. unfold made. clear made.
  destruct (Hr (cursor r)) as [Hu0 Hu1].
  assert (Hx0 : 0 <= tape r (cursor r)
                     * (effect_slowmo s + effect_freeze s + effect_normal s))
    by (apply Qmult_le_0_compat; lra).
  assert (Hx1 : tape r (cursor r)
                * (effect_slowmo s + effect_freeze s + effect_normal s)
                < effect_slowmo s + effect_freeze s + effect_normal s).
  { assert (tape r (cursor r)
            * (effect_slowmo s + effect_freeze s + effect_normal s)
            < 1 * (effect_slowmo s + effect_freeze s + effect_normal s))
      by (apply Qmult_lt_compat_r; lra). lra. }
  destruct (Hr (S (cursor r))) as [Hv0 Hv1].
  destruct (Hr (S (S (cursor r)))) as [Hw0 Hw1].
  split.
  - intros Hcan.
    effect_cases; try (eexists; reflexivity); exfalso; prop_tests;
      try lra.
    destruct Hcan as [Hzero|Hspeed]; [lra|].
    apply Hspeed. apply Qeq_bool_iff. assumption.
  - intro c.
    effect_cases; intro Hc; try discriminate Hc; injection Hc as <-; simpl;
      prop_tests;
      repeat split; intros; try discriminate; try reflexivity;
        try congruence; exfalso; lra.
Qed.

Lemma impossible_effects_never_drawn_witness :
  exists c,
    fst (random_effect (subclip 0 3) 3 double_speed (constant_rng 0.5))
    = Returned c
    /\ effect_type c <> Freeze
    /\ effect_type c <> Normal.
Proof.
  assert (Hr : unit_draws (constant_rng 0.5)).
  { intro i. simpl. split; [unfold Qle; simpl; lia | reflexivity]. }
  destruct (impossible_effects_never_drawn 0 3 3 double_speed
              (constant_rng 0.5) Hr) as (Hex & Hall);
    try (unfold Qle; simpl; lia); try reflexivity.
  destruct Hex as [c Hc]; [right; discriminate|].
  exists c. split; [exact Hc|].
  destruct (Hall c Hc) as (_ & Hf & Hn & _).
  split; [apply Hf | apply Hn]; reflexivity.
Defined.

(** [random.randint(1, m)] stays within [1..m]. *)
Lemma randint_bounds (m : Z) (r : rng) (k : Z) :
  unit_draws r ->
  fst (randint 1 m r) = Some k ->
  (1 <= k <= m)%Z.
Proof.
  intros Hr. unfold randint.
  destruct (m <? 1)%Z eqn:Em; [discriminate|].
  apply Z.ltb_ge in Em.
  unfold bind, ret, random. cbn [fst]. intro Hk.
  assert (Ek : k = (1 + Qfloor (tape r (cursor r) * inject_Z (m - 1 + 1)))%Z)
    by congruence.
  clear Hk. subst k.
  destruct (Hr (cursor r)) as [H0 H1].
  set (u := tape r (cursor r)) in *.
  assert (Hm : 0 < inject_Z (m - 1 + 1)).
  { change 0 with (inject_Z 0). rewrite <- Zlt_Qlt. lia. }
  assert (Hlow : (0 <= Qfloor (u * inject_Z (m - 1 + 1)))%Z).
  { change 0%Z with (Qfloor 0). apply Qfloor_resp_le.
    apply Qmult_le_0_compat; lra. }
  assert (Hhigh : (Qfloor (u * inject_Z (m - 1 + 1)) < m - 1 + 1)%Z).
  { rewrite Zlt_Qlt.
    eapply Qle_lt_trans; [apply Qfloor_le|].
    assert (u * inject_Z (m - 1 + 1) < 1 * inject_Z (m - 1 + 1))
      by (apply Qmult_lt_compat_r; lra).
    lra. }
  lia.
Qed.

(** X8. One candidate adds at most one clip and [max_repeats] repeats of
    it to the list, all on the window of the candidate, and it never
    touches the clips already in the list.  It adds nothing when no clip
    is made of the candidate; when one is made, that clip is added, before
    its repeats, and it is the only one added when the repeat probability
    is 0 or [max_repeats] is below 1. *)
Theorem candidate_clip_count (cancelled : bool)
    (video_duration current_time segment_duration : Q) (s : settings)
    (clips : list clip) (r : rng) :
  unit_draws r ->
  let made :=
    fst (create_random_effect_clip cancelled video_duration current_time
           segment_duration s r) in
  exists added,
    fst (try_segment cancelled video_duration current_time segment_duration
           s clips r)
    = clips ++ added
    /\ (List.length added <= 1 + Z.to_nat (max_repeats s))%nat
    /\ Forall (fun c => t_start c = current_time
                        /\ t_end c = current_time + segment_duration) added
    /\ ((forall c, made <> Returned (Some c)) -> added = [])
    /\ (forall c, made = Returned (Some c) ->
                  exists repeats, added = c :: repeats)
    /\ (repeat_probability s <= 0 \/ (max_repeats s < 1)%Z ->
        forall c, made = Returned (Some c) -> added = [c]).
Proof.
  intros Hr made. unfold made. clear made. unfold try_segment, bind.
  pose proof (create_random_effect_clip_window cancelled video_duration
                current_time segment_duration s r) as Hwin.
  pose proof (keeps_tape_create_random_effect_clip cancelled video_duration
                current_time segment_duration s r) as Ht1.
  assert (Hnone : forall made : raising (option clip),
            (forall c, made <> Returned (Some c)) ->
            exists added : list clip,
              clips = clips ++ added
              /\ (List.length added <= 1 + Z.to_nat (max_repeats s))%nat
              /\ Forall (fun c => t_start c = current_time
                                  /\ t_end c = current_time + segment_duration)
                   added
              /\ ((forall c, made <> Returned (Some c)) -> added = [])
              /\ (forall c, made = Returned (Some c) ->
                            exists repeats, added = c :: repeats)
              /\ (repeat_probability s <= 0 \/ (max_repeats s < 1)%Z ->
                  forall c, made = Returned (Some c) -> added = [c])).
  { intros made Hmade. exists []. rewrite app_nil_r. simpl.
    repeat split; auto; try lia; intros; exfalso; eapply Hmade; eassumption. }
  destruct (create_random_effect_clip cancelled video_duration current_time
              segment_duration s r) as [[[c|]|message] r1];
    cbn [fst snd] in *;
    [|apply Hnone; discriminate|apply Hnone; discriminate].
  specialize (Hwin c eq_refl).
  assert (Hr1 : unit_draws r1) by (eapply unit_draws_same; eassumption).
  assert (Hone : exists added,
             clips ++ [c] = clips ++ added
             /\ (List.length added <= 1 + Z.to_nat (max_repeats s))%nat
             /\ Forall (fun c => t_start c = current_time
                                 /\ t_end c = current_time + segment_duration)
                  added
             /\ ((forall c0, Returned (Some c) <> Returned (Some c0)) ->
                 added = [])
             /\ (forall c0, Returned (Some c) = Returned (Some c0) ->
                            exists repeats, added = c0 :: repeats)
             /\ (repeat_probability s <= 0 \/ (max_repeats s < 1)%Z ->
                 forall c0, Returned (Some c) = Returned (Some c0) ->
                            added = [c0])).
  { exists [c]. simpl. split; [reflexivity|]. split; [lia|].
    split; [constructor; auto|]. split; [|split].
    - intro H. exfalso. apply (H c). reflexivity.
    - intros c0 [= <-]. exists []. reflexivity.
    - intros _ c0 [= <-]. reflexivity. }
  destruct (Hr1 (cursor r1)) as [Hu0 _].
  unfold random at 1. cbn [fst snd].
  destruct (Qlt_bool (tape r1 (cursor r1)) (repeat_probability s)) eqn:Ep;
    [|exact Hone].
  prop_tests.
  pose proof (randint_bounds (max_repeats s)
                (mkRng (tape r1) (S (cursor r1)))) as Hk.
  destruct (randint 1 (max_repeats s) (mkRng (tape r1) (S (cursor r1))))
    as [[k|] r3]; [|exact Hone].
  specialize (Hk k ltac:(intro i; apply Hr1) eq_refl).
  destruct (repeat_loop_appends (Z.to_nat k) cancelled video_duration
              current_time segment_duration s (clips ++ [c]) r3)
    as (added & Heq & Hall & Hlen).
  exists (c :: added). rewrite Heq, <- app_assoc. simpl.
  split; [reflexivity|]. split; [lia|]. split; [|split; [|split]].
  - constructor; [exact Hwin|].
    eapply Forall_impl; [|exact Hall]. intros a (Ha & Hb & _). auto.
  - intro H. exfalso. apply (H c). reflexivity.
  - intros c0 [= <-]. exists added. reflexivity.
  - intros [Hp|Hm]; exfalso; [lra|lia].
Qed.

Lemma candidate_clip_count_witness :
  exists added c repeats,
    fst (try_segment false 600 100 4 always_repeat [] (constant_rng 0.5))
    = [] ++ added
    /\ (List.length added <= 1 + Z.to_nat (max_repeats always_repeat))%nat
    /\ fst (create_random_effect_clip false 600 100 4 always_repeat
              (constant_rng 0.5)) = Returned (Some c)
    /\ added = c :: repeats.
Proof.
  assert (Hr : unit_draws (constant_rng 0.5)).
  { intro i. simpl. split; [unfold Qle; simpl; lia | reflexivity]. }
  assert (Hc : exists c,
             fst (create_random_effect_clip false 600 100 4 always_repeat
                    (constant_rng 0.5)) = Returned (Some c))
    by (eexists; vm_compute; reflexivity).
  destruct Hc as [c Hc].
  destruct (candidate_clip_count false 600 100 4 always_repeat []
              (constant_rng 0.5) Hr) as (added & Heq & Hlen & _ & _ & Hfirst & _).
  destruct (Hfirst c Hc) as [repeats Hadded].
  exists added, c, repeats. auto.
Defined.

(** ** Encoder parameters *)

(** X9. The bitrate is one of four values and never decreases when the
    number of pixels grows; a source at least as large as 1280x720,
    1920x1080 or 3840x2160 gets at least 6000k, 10000k or 40000k. *)
Theorem bitrate_grows_with_resolution (width height width' height' : Z) :
  (width * height <= width' * height')%Z ->
  (kilobits (analyze_video_quality width height)
   <= kilobits (analyze_video_quality width' height'))%Z
  /\ In (analyze_video_quality width height)
        ["40000k"; "10000k"; "6000k"; "4000k"]%string
  /\ ((1280 <= width)%Z -> (720 <= height)%Z ->
      (6000 <= kilobits (analyze_video_quality width height))%Z)
  /\ ((1920 <= width)%Z -> (1080 <= height)%Z ->
      (10000 <= kilobits (analyze_video_quality width height))%Z)
  /\ ((3840 <= width)%Z -> (2160 <= height)%Z ->
      analyze_video_quality width height = "40000k"%string).
Proof.
  intro Hle. unfold analyze_video_quality.
  destruct (8294400 <=? width * height)%Z eqn:E1;
    [|destruct (2073600 <=? width * height)%Z eqn:E2;
      [|destruct (921600 <=? width * height)%Z eqn:E3]];
    (destruct (8294400 <=? width' * height')%Z eqn:F1;
      [|destruct (2073600 <=? width' * height')%Z eqn:F2;
        [|destruct (921600 <=? width' * height')%Z eqn:F3]]);
    repeat match goal with
           | H : (_ <=? _)%Z = true |- _ => apply Z.leb_le in H
           | H : (_ <=? _)%Z = false |- _ => apply Z.leb_gt in H
           end;
    try lia;
    (split; [vm_compute; congruence|]);
    (split; [simpl; tauto|]);
    (split; [intros; try (vm_compute; congruence); nia|]);
    (split; [intros; try (vm_compute; congruence); nia|]);
    intros; try reflexivity; nia.
Qed.

Lemma bitrate_grows_with_resolution_witness :
  (kilobits (analyze_video_quality 1280 720)
   <= kilobits (analyze_video_quality 1920 1080))%Z.
Proof.
  apply (bitrate_grows_with_resolution 1280 720 1920 1080). lia.
Defined.

(** A looked-up value is the default or a value of the table. *)
Lemma dict_get_values (key : string) (table : list (string * string))
    (default : string) :
  In (dict_get key table default) (default :: map snd table).
Proof.
  induction table as [|[k v] rest IH]; simpl; [now left|].
  destruct (String.eqb key k); [right; now left|].
  destruct IH as [IH|IH]; [now left|right; now right].
Qed.

(** X10. With hardware acceleration off, or not configured at all, the
    encoder is libx264 with the medium preset.  With it on, the codec is
    the configured encoder, and whatever preset name is configured an
    NVENC encoder gets one of p1..p7, a QSV encoder one of the seven QSV
    presets and an AMF encoder one of speed, balanced, quality; for any
    other encoder the configured preset is passed on as it is. *)
Theorem vendor_presets_are_valid (h : hardware_acceleration) :
  get_ffmpeg_params None = mkParams "libx264" "medium"
  /\ (enabled h = false ->
      get_ffmpeg_params (Some h) = mkParams "libx264" "medium")
  /\ (enabled h = true ->
      param_codec (get_ffmpeg_params (Some h)) = encoder h
      /\ (py_in "nvenc" (encoder h) = true ->
          In (param_preset (get_ffmpeg_params (Some h)))
             ["p1"; "p2"; "p3"; "p4"; "p5"; "p6"; "p7"]%string)
      /\ (py_in "nvenc" (encoder h) = false ->
          py_in "qsv" (encoder h) = true ->
          In (param_preset (get_ffmpeg_params (Some h)))
             ["veryfast"; "faster"; "fast"; "medium"; "slow"; "slower";
              "veryslow"]%string)
      /\ (py_in "nvenc" (encoder h) = false ->
          py_in "qsv" (encoder h) = false ->
          py_in "amf" (encoder h) = true ->
          In (param_preset (get_ffmpeg_params (Some h)))
             ["speed"; "balanced"; "quality"]%string)
      /\ (py_in "nvenc" (encoder h) = false ->
          py_in "qsv" (encoder h) = false ->
          py_in "amf" (encoder h) = false ->
          param_preset (get_ffmpeg_params (Some h)) = preset h)).
Proof.
  split; [reflexivity|]. split.
  - intro Hoff. unfold get_ffmpeg_params. now rewrite Hoff.
  - intro Hon. unfold get_ffmpeg_params. rewrite Hon. simpl.
    split; [reflexivity|].
    split; [|split; [|split]].
    + intros ->.
      pose proof (dict_get_values (preset h) nvenc_presets "p4") as Hin.
      simpl in Hin |- *. tauto.
    + intros -> ->.
      pose proof (dict_get_values (preset h) qsv_presets "medium") as Hin.
      simpl in Hin |- *. tauto.
    + intros -> -> ->.
      pose proof (dict_get_values (preset h) amf_presets "balanced") as Hin.
      simpl in Hin |- *. tauto.
    + intros -> -> ->. reflexivity.
Qed.

(** ** The hardware recommendation *)

(** Cases on the tests that [get_recommended_settings] makes. *)
Ltac detector_cases d :=
  unfold get_recommended_settings;
  destruct (String.eqb (system d) "Darwin");
  destruct (list_in "h264_videotoolbox" (hardware_encoders d)) eqn:?;
  (destruct (gpu_nvidia d);
   [destruct (list_in "h264_nvenc" (hardware_encoders d)) eqn:?;
    destruct (list_in "h264_cuvid" (hardware_decoders d)) eqn:?
   |destruct (gpu_intel d);
    [destruct (list_in "h264_qsv" (hardware_encoders d)) eqn:?;
     destruct (list_in "h264_qsv" (hardware_decoders d)) eqn:?
    |destruct (gpu_amd d);
     [destruct (list_in "h264_amf" (hardware_encoders d)) eqn:?|]]]);
  simpl.

(** X11. The recommendation turns hardware acceleration on exactly when
    it names an encoder other than libx264, and then that encoder is one
    of the detected hardware encoders; a decoder other than [auto] is one
    of the detected hardware decoders; without hardware acceleration the
    preset is medium. *)
Theorem recommendation_is_detected (d : detector) :
  let rec_settings := get_recommended_settings d in
  (rec_hardware_acceleration rec_settings = true <->
   rec_encoder rec_settings <> "libx264"%string)
  /\ (rec_hardware_acceleration rec_settings = true ->
      list_in (rec_encoder rec_settings) (hardware_encoders d) = true)
  /\ (rec_decoder rec_settings <> "auto"%string ->
      list_in (rec_decoder rec_settings) (hardware_decoders d) = true)
  /\ (rec_hardware_acceleration rec_settings = false ->
      rec_preset rec_settings = "medium"%string)
  /\ rec_threads rec_settings = 4%Z.
Proof.
  detector_cases d;
    repeat split; intros; try reflexivity; try assumption;
    try discriminate; try congruence.
Qed.

(** X12. When the recommendation is applied and the run is started, the
    encoder and the preset that reach the encoder are the recommended
    ones if hardware acceleration is recommended, and libx264 with the
    medium preset otherwise: the preset tables leave every recommended
    preset as it is. *)
Theorem recommendation_reaches_encoder (d : detector) :
  let rec_settings := get_recommended_settings d in
  let applied := apply_recommended_settings rec_settings in
  get_ffmpeg_params (Some (collect_hardware (fst applied) (snd applied)))
  = if rec_hardware_acceleration rec_settings
    then mkParams (rec_encoder rec_settings) (rec_preset rec_settings)
    else mkParams "libx264" "medium".
Proof.
  detector_cases d; reflexivity.
Qed.

(** ** File sizes *)

(** What the loop of [format_file_size] leaves: the size in the unit it
    stops at. *)
Lemma size_loop_parts (bytes_size : Q) :
  0 <= bytes_size ->
  let size := fst (size_loop 4 bytes_size 0) in
  let unit_index := snd (size_loop 4 bytes_size 0) in
  size * inject_Z (1024 ^ Z.of_nat unit_index) == bytes_size
  /\ (unit_index <= 3)%nat
  /\ (size < 1024 \/ unit_index = 3%nat)
  /\ ((0 < unit_index)%nat -> 1 <= size)
  /\ 0 <= size.
Proof.
  intro Hpos. simpl.
  assert (Hdiv : forall x, x / 1024 == x * (1 # 1024)) by (intro; field).
  destruct (Qle_bool 1024 bytes_size) eqn:E1; simpl;
    [destruct (Qle_bool 1024 (bytes_size / 1024)) eqn:E2; simpl;
     [destruct (Qle_bool 1024 (bytes_size / 1024 / 1024)) eqn:E3; simpl;
      [destruct (Qle_bool 1024 (bytes_size / 1024 / 1024 / 1024)) eqn:E4;
       simpl|]|]|];
    prop_tests;
    rewrite ?Hdiv in *;
    match goal with
    | |- context [inject_Z ?z] =>
        let v := eval vm_compute in (inject_Z z) in
        change (inject_Z z) with v
    end;
    (split; [lra|]);
    (split; [lia|]);
    (split; [(left; lra) || (right; reflexivity)|]);
    (split; [intro Hi; try lia; lra|]);
    lra.
Qed.

Lemma append_assoc (a b c : string) :
  ((a ++ b) ++ c = a ++ (b ++ c))%string.
Proof. induction a as [|x a IH]; simpl; [reflexivity|now rewrite IH]. Qed.

(** Rounding moves a number by at most one half. *)
Lemma round_half_even_near (x : Q) :
  inject_Z (round_half_even x) - (1 # 2) <= x
  /\ x <= inject_Z (round_half_even x) + (1 # 2).
Proof.
  unfold round_half_even.
  pose proof (Qfloor_le x) as Hlow.
  pose proof (Qlt_floor x) as Hhigh.
  rewrite inject_Z_plus in Hhigh. change (inject_Z 1) with 1 in Hhigh.
  destruct (Qlt_bool (x - inject_Z (Qfloor x)) (1 # 2)) eqn:E1;
    [prop_tests; split; lra|].
  destruct (Qlt_bool (1 # 2) (x - inject_Z (Qfloor x))) eqn:E2;
    [prop_tests; rewrite inject_Z_plus; change (inject_Z 1) with 1;
     split; lra|].
  prop_tests.
  destruct (Z.even (Qfloor x));
    [|rewrite inject_Z_plus; change (inject_Z 1) with 1]; split; lra.
Qed.

(** X13. For a file size that is not negative, [format_file_size] prints
    the size in the unit the loop stops at, one of B, KB, MB and GB,
    rounded to the nearest hundredth: the number printed, [h / 100],
    differs by at most 0.005 from the size in that unit, which is the
    size in bytes divided by 1024 to the power of the unit.  The number
    printed is at least 1.00 for every unit but B, and at most 1024.00
    for every unit but GB. *)
Theorem file_size_is_rounded (bytes_size : Z) :
  (0 <= bytes_size)%Z ->
  exists (size : Q) (unit_index : nat) (h : Z),
    size_loop 4 (inject_Z bytes_size) 0 = (size, unit_index)
    /\ h = round_half_even (size * 100)
    /\ format_file_size bytes_size
       = (digits (h / 100) ++ "." ++ digits (h mod 100 / 10)
          ++ digits (h mod 10) ++ " " ++ nth unit_index units "")%string
    /\ In (nth unit_index units ""%string) units
    /\ size * inject_Z (1024 ^ Z.of_nat unit_index) == inject_Z bytes_size
    /\ inject_Z h - (1 # 2) <= size * 100
    /\ size * 100 <= inject_Z h + (1 # 2)
    /\ (0 <= h)%Z
    /\ ((0 < unit_index)%nat -> (100 <= h)%Z)
    /\ ((unit_index < 3)%nat -> (h <= 102400)%Z).
Proof.
  intro Hpos.
  assert (Hq : 0 <= inject_Z bytes_size).
  { change 0 with (inject_Z 0). rewrite <- Zle_Qle. exact Hpos. }
  destruct (size_loop_parts (inject_Z bytes_size) Hq)
    as (Hsize & Hunit & Hbelow & Habove & Hnonneg).
  unfold format_file_size.
  destruct (size_loop 4 (inject_Z bytes_size) 0) as [size unit_index].
  cbn [fst snd] in *.
  destruct (round_half_even_near (size * 100)) as [Hlow Hhigh].
  set (h := round_half_even (size * 100)) in *.
  exists size, unit_index, h.
  split; [reflexivity|]. split; [reflexivity|].
  split; [unfold format_2f; fold h; now rewrite !append_assoc|].
  split.
  { destruct unit_index as [|[|[|[|k]]]]; simpl; try tauto. lia. }
  split; [exact Hsize|]. split; [exact Hlow|]. split; [exact Hhigh|].
  assert (Hint : forall a b : Z, inject_Z a < inject_Z b + 1 -> (a <= b)%Z).
  { intros a b H. change 1 with (inject_Z 1) in H.
    rewrite <- inject_Z_plus, <- Zlt_Qlt in H. lia. }
  split; [|split].
  - apply (Hint 0%Z h). change (inject_Z 0) with 0. lra.
  - intro Hk. specialize (Habove Hk).
    apply (Hint 100%Z h). change (inject_Z 100) with 100. lra.
  - intro Hk. destruct Hbelow as [Hbelow|Hlast]; [|lia].
    apply (Hint h 102400%Z). change (inject_Z 102400) with 102400. lra.
Qed.

Lemma file_size_is_rounded_witness :
  format_file_size 5000000 = "4.77 MB"%string
  /\ format_file_size 1048575 = "1024.00 KB"%string
  /\ format_file_size 1152 = "1.12 KB"%string
  /\ format_file_size 512 = "512.00 B"%string
  /\ exists size unit_index h,
       size_loop 4 (inject_Z 5000000) 0 = (size, unit_index)
       /\ inject_Z h - (1 # 2) <= size * 100
       /\ size * 100 <= inject_Z h + (1 # 2).
Proof.
  split; [vm_compute; reflexivity|].
  split; [vm_compute; reflexivity|].
  split; [vm_compute; reflexivity|].
  split; [vm_compute; reflexivity|].
  destruct (file_size_is_rounded 5000000) as
    (size & unit_index & h & H1 & _ & _ & _ & _ & H2 & H3 & _); [lia|].
  exists size, unit_index, h. auto.
Defined.

(** ** Ranges entered through the dialogs *)

(** X14. A range that the included-timestamp dialog accepts is the range
    typed in, and the processor changes neither its tag nor its window:
    a clip made of it is on the whole range and has its tag.  Exactly one
    clip is made of it whenever the range starts within the source and
    the effect code does not raise (effect weights of positive total, a
    slow-motion speed other than 0).  A range that the excluded-timestamp
    dialog accepts excludes exactly the times from its start to its
    end. *)
Theorem dialog_ranges_are_kept (video_duration start end_ : Q) (pos : string)
    (range : Q * Q * string) (s : settings) (r : rng) :
  IncludedTimestampDialog_ok start end_ pos = Some range ->
  range = (start, end_, pos)
  /\ (forall c tag,
        In (c, tag)
           (fst (create_included_segment_clips false video_duration [range]
                   s r)) ->
        tag = pos /\ t_start c = start /\ t_end c = end_)
  /\ (start <= video_duration ->
      0 < effect_slowmo s + effect_freeze s + effect_normal s ->
      ~ slowmo_speed s == 0 ->
      exists c r',
        create_included_segment_clips false video_duration [range] s r
        = ([(c, pos)], r')
        /\ t_start c = start /\ t_end c = end_)
  /\ (forall desc excluded time,
        TimestampDialog_ok start end_ desc = Some excluded ->
        (is_timestamp_excluded time [excluded] = true <->
         start <= time /\ time <= end_)).
Proof.
  unfold IncludedTimestampDialog_ok.
  destruct (Qle_bool end_ start) eqn:E; [discriminate|].
  destruct (known_position pos) eqn:Ek; [|discriminate].
  simpl. intros [= <-]. prop_tests.
  assert (Hlen : has_length (start, end_, pos) = true).
  { simpl. apply negb_true_iff, Qle_bool_false_iff. lra. }
  assert (Htag : placed_tag pos = pos) by (unfold placed_tag; now rewrite Ek).
  pose proof (random_effect_window (subclip start end_) (end_ - start) s r)
    as Hw.
  split; [reflexivity|]. split; [|split].
  - intros c tag. unfold create_included_segment_clips.
    destruct (Qlt_le_dec video_duration start) as [Hlate|Hin].
    + rewrite included_loop_skip by exact Hlate. simpl. tauto.
    + rewrite included_loop_step by assumption.
      destruct (fst (random_effect (subclip start end_) (end_ - start) s r))
        as [c'|message]; simpl; [|tauto].
      intros [Heq|[]]. injection Heq as <- <-.
      destruct (Hw c' eq_refl) as [Hs He]. auto.
  - intros Hin Htotal Hspeed. unfold create_included_segment_clips.
    rewrite included_loop_step by assumption.
    destruct (random_effect_returns (subclip start end_) (end_ - start) s r
                Htotal Hspeed) as [c Hc].
    rewrite Hc in *. destruct (Hw c eq_refl) as [Hs He].
    rewrite Htag. simpl.
    exists c, (snd (random_effect (subclip start end_) (end_ - start) s r)).
    auto.
  - intros desc excluded time. unfold TimestampDialog_ok.
    assert (El : Qle_bool end_ start = false)
      by (apply Qle_bool_false_iff; assumption).
    rewrite El. intro Heq.
    assert (Hex : excluded = (start, end_, desc)) by congruence.
    subst excluded. unfold is_timestamp_excluded, existsb.
    rewrite orb_false_r, andb_true_iff, !Qle_bool_iff. reflexivity.
Qed.

Lemma dialog_ranges_are_kept_witness :
  exists c r',
    create_included_segment_clips false 8000 [(7674, 7773, "end"%string)]
      main_defaults (constant_rng 0.5) = ([(c, "end"%string)], r')
    /\ t_start c = 7674 /\ t_end c = 7773.
Proof.
  destruct (dialog_ranges_are_kept 8000 7674 7773 "end"
              (7674, 7773, "end"%string) main_defaults (constant_rng 0.5))
    as (_ & _ & H & _); [reflexivity|].
  apply H; [unfold Qle; simpl; lia | reflexivity | discriminate].
Defined.

(** X15. Settings that the processor accepts are never refused by the
    check of [start_processing]: its tolerance is the wider one. *)
Theorem accepted_settings_pass_start_check (s : settings) :
  validate_settings s = None -> start_processing_refuses s = false.
Proof.
  unfold validate_settings, start_processing_refuses.
  set (effect_total := 0 + effect_slowmo s + effect_freeze s + effect_normal s).
  set (segment_total := 0 + dist_beginning s + dist_middle s + dist_end s).
  pose proof (isclose_one_iff effect_total) as He.
  pose proof (isclose_one_iff segment_total) as Hd.
  destruct (isclose effect_total 1.0); [|discriminate].
  destruct (isclose segment_total 1.0); [|discriminate].
  intros _.
  assert (Ha : forall x, Qabs (x - 1.0) == Qabs (x - 1))
    by (intro x; apply Qabs_wd; lra).
  assert (H1 : Qabs (effect_total - 1) <= 0.00001001).
  { apply Qnot_lt_le. intro H. apply He in H. discriminate. }
  assert (H2 : Qabs (segment_total - 1) <= 0.00001001).
  { apply Qnot_lt_le. intro H. apply Hd in H. discriminate. }
  apply orb_false_iff. split; apply Qlt_bool_false_iff; rewrite Ha; lra.
Qed.

Lemma accepted_settings_pass_start_check_witness :
  start_processing_refuses main_defaults = false.
Proof.
  apply (accepted_settings_pass_start_check main_defaults). reflexivity.
Defined.

(** ** The zone plan *)

(** X16. In every plan the End-main zone is followed by the tail window,
    which ends half a second before the end of the source; the End-main
    zone is 290, 470 or 590 seconds long.  It starts inside the source
    exactly when the source lasts at least 300 s, and it starts after
    the middle zone, which ends at 66% of the source, exactly when the
    source lasts at least 15000/17 s (about 882 s): in a shorter source
    the two zones overlap. *)
Theorem zone_plan_order (duration : Q) :
  let main_start := fst (fst (get_end_segment duration)) in
  let final_start := snd (fst (get_end_segment duration)) in
  let final_end := snd (get_end_segment duration) in
  main_start < final_start
  /\ final_start < final_end
  /\ final_end < duration
  /\ (final_start - main_start == 290
      \/ final_start - main_start == 470
      \/ final_start - main_start == 590)
  /\ (0 <= main_start <-> 300 <= duration)
  /\ (duration * 0.66 <= main_start <-> (15000 # 17) <= duration).
Proof.
  unfold get_end_segment. simpl.
  assert (E : duration == duration / 60 * 60) by field.
  destruct (Qle_bool (duration / 60) 90) eqn:E1;
    [|destruct (Qle_bool (duration / 60) 120) eqn:E2];
    prop_tests;
    (split; [lra|]); (split; [lra|]); (split; [lra|]);
    (split; [first [left; lra | right; left; lra | right; right; lra]|]);
    split; split; intro; lra.
Qed.

(** ** Zones without exclusions *)

Lemma try_segment_keeps_first (cancelled : bool)
    (video_duration current_time segment_duration : Q) (s : settings)
    (clips : list clip) (r : rng) (c : clip) :
  fst (create_random_effect_clip cancelled video_duration current_time
         segment_duration s r)
  = Returned (Some c) ->
  exists more,
    fst (try_segment cancelled video_duration current_time segment_duration
           s clips r)
    = clips ++ c :: more.
Proof.
  unfold try_segment, bind, ret.
  destruct (create_random_effect_clip cancelled video_duration current_time
              segment_duration s r) as [[[c'|]|message] r1]; cbn [fst];
    [|discriminate|discriminate].
  intros [= ->].
  destruct (random r1) as [u r2].
  destruct (Qlt_bool u (repeat_probability s)); [|exists []; reflexivity].
  destruct (randint 1 (max_repeats s) r2) as [[k|] r3];
    [|exists []; reflexivity].
  destruct (repeat_loop_appends (Z.to_nat k) cancelled video_duration
              current_time segment_duration s (clips ++ [c]) r3)
    as (added & Heq & _).
  exists added. rewrite Heq, <- app_assoc. reflexivity.
Qed.

Lemma nothing_excluded (probes : list Q) :
  existsb (fun t => is_timestamp_excluded t []) probes = false.
Proof. induction probes; simpl; auto. Qed.

(** X17. Without excluded ranges, and with settings under which the
    effect code does not raise (effect weights of positive total, a
    slow-motion speed other than 0), a zone of at least 2 seconds that
    starts within the source always gives a clip in an uncancelled run,
    and its first clip starts where the zone starts. *)
Theorem open_zone_yields_a_clip (fuel : nat)
    (video_duration section_start section_end : Q) (num_segments : Z)
    (s : settings) (r : rng) (clips : list clip) (r' : rng) :
  unit_tape r ->
  excluded_timestamps s = [] ->
  0 < effect_slowmo s + effect_freeze s + effect_normal s ->
  ~ slowmo_speed s == 0 ->
  section_start <= video_duration ->
  2 <= section_end - section_start ->
  create_section_clips fuel false video_duration section_start section_end
    num_segments s r
  = (Some clips, r') ->
  exists c rest, clips = c :: rest /\ t_start c = section_start.
Proof.
  intros Hr Hnone Htotal Hspeed Hin Hlong. unfold create_section_clips.
  set (step := (section_end - section_start)
               / inject_Z (actual_segments (section_end - section_start)
                             num_segments)).
  assert (Hstep : 0 <= step).
  { pose proof (actual_segments_pos (section_end - section_start) num_segments).
    apply Qle_shift_div_l; [|lra].
    change 0 with (inject_Z 0). rewrite <- Zlt_Qlt. lia. }
  destruct fuel as [|fuel]; [discriminate|]. simpl.
  assert (E1 : Qlt_bool section_start section_end = true)
    by (apply Qlt_bool_iff; lra).
  assert (E2 : Qlt_bool (section_end - section_start) 2 = false)
    by (apply Qlt_bool_false_iff; lra).
  rewrite E1, E2. simpl. unfold bind.
  pose proof (unit_tape_after _ r
                (keeps_tape_uniform 2 (py_min 4 (section_end - section_start)))
                Hr) as Hr1.
  destruct (uniform 2 (py_min 4 (section_end - section_start)) r) as [d r1].
  simpl in Hr1.
  assert (Hmade : exists c,
             fst (create_random_effect_clip false video_duration section_start
                    d s r1)
             = Returned (Some c)).
  { destruct (create_random_effect_clip_cases video_duration section_start d
                s r1) as (_ & _ & Hclear).
    rewrite Hclear; [|rewrite Hnone; apply nothing_excluded|exact Hin].
    destruct (random_effect_returns (subclip section_start (section_start + d))
                d s r1 Htotal Hspeed) as [c Hc].
    exists c. cbn [fst]. rewrite Hc. reflexivity. }
  destruct Hmade as [c Hc].
  pose proof (create_random_effect_clip_window _ _ _ _ _ _ _ Hc) as [Hstart _].
  destruct (try_segment_keeps_first false video_duration section_start d s []
              r1 c Hc)
    as [more Hmore].
  pose proof (unit_tape_after _ r1
                (keeps_tape_try_segment false video_duration section_start d s
                   []) Hr1)
    as Hr2.
  destruct (try_segment false video_duration section_start d s [] r1)
    as [clips1 r2].
  simpl in Hmore, Hr2. subst clips1.
  pose proof (unit_tape_after _ r2 (keeps_tape_uniform 0.8 1.2) Hr2) as Hr3.
  destruct (uniform 0.8 1.2 r2) as [u r3]. simpl in Hr3.
  intro Hrun.
  apply section_loop_appends in Hrun as (added & -> & _); [|exact Hstep|exact Hr3].
  exists c, (more ++ added). split; [reflexivity|exact Hstart].
Qed.

Lemma open_zone_yields_a_clip_witness :
  exists clips r' c rest,
    create_section_clips 17 false 600 0 198 8 defaults (constant_rng 0.5)
    = (Some clips, r')
    /\ clips = c :: rest /\ t_start c = 0.
Proof.
  assert (H : exists clips r',
             create_section_clips 17 false 600 0 198 8 defaults
               (constant_rng 0.5)
             = (Some clips, r'))
    by (do 2 eexists; vm_compute; reflexivity).
  destruct H as (clips & r' & E).
  destruct (open_zone_yields_a_clip 17 600 0 198 8 defaults (constant_rng 0.5)
              clips r' constant_rng_unit) as (c & rest & H1 & H2);
    [reflexivity | reflexivity | discriminate | unfold Qle; simpl; lia
    | unfold Qle; simpl; lia | exact E |].
  exists clips, r', c, rest. auto.
Defined.
